(** * Profit change by segment: the query of [server.py] and its properties

    [server.py] builds one aggregate SQL statement from five parameters and
    runs it on the [sales_data] table.  The statement is the program: this
    file gives it a denotation over an in-memory table (SQL three-valued
    logic, [LIKE], [COALESCE], [SUM], [GROUP BY], the window sum, [ORDER BY]
    and [LIMIT]) and models the Python functions around it in a small
    error-and-trace monad, so that "which failure comes first" can be stated.

    Modelling choices, all local to this file:
    - text is [string]; one [ascii] stands for one character;
    - the schema of [sales_data] is not part of the repository: the quantity
      and price columns are taken to be exact whole numbers (nullable [Z]),
      every other column is nullable text;
    - the division of two [numeric] values is a parameter of the functions
      ([numeric_div]); [server_div] is the division of the server, the
      exact quotient rounded to the scale the server selects, and is the
      one the statement about the percentage and every run below use. *)

From Stdlib Require Import ZArith QArith List String Ascii Bool Lia.
From Stdlib Require Import Sorted Permutation.
Import ListNotations.

Local Open Scope string_scope.
Local Open Scope Z_scope.

(** ** Text *)

Module Text.

(** Python's [sub in s] and the test behind SQL's [position(sub IN s) = 0]:
    does [sub] occur in [s] as a contiguous substring? *)
Fixpoint contains (sub s : string) : bool :=
  String.prefix sub s ||
  match s with
  | EmptyString => false
  | String _ s' => contains sub s'
  end.

(** SQL [position(sub IN s)]: 1-based index of the first occurrence, 0 when
    there is none. *)
Fixpoint position (sub s : string) : Z :=
  if String.prefix sub s then 1
  else match s with
       | EmptyString => 0
       | String _ s' => let p := position sub s' in
                        if p =? 0 then 0 else p + 1
       end.

(** SQL [s LIKE p] without an ESCAPE clause: [%] matches any run of
    characters, [_] any one character, a backslash makes the next pattern
    character literal.  A pattern whose last character is an unescaped
    backslash is rejected by the server; [wf_pattern] below says when that
    cannot happen, and [like] answers [false] there. *)
Fixpoint like (p : string) : string -> bool :=
  match p with
  | EmptyString =>
      fun s => match s with EmptyString => true | _ => false end
  | String c p' =>
      if Ascii.eqb c "%" then
        fix skip (s : string) : bool :=
          like p' s ||
          match s with
          | EmptyString => false
          | String _ s' => skip s'
          end
      else if Ascii.eqb c "_" then
        fun s => match s with EmptyString => false | String _ s' => like p' s' end
      else if Ascii.eqb c "\" then
        match p' with
        | EmptyString => fun _ => false
        | String c' p'' =>
            fun s => match s with
                     | EmptyString => false
                     | String d s' => Ascii.eqb c' d && like p'' s'
                     end
        end
      else
        fun s => match s with
                 | EmptyString => false
                 | String d s' => Ascii.eqb c d && like p' s'
                 end
  end.

(** The pattern does not end in a dangling escape character. *)
Fixpoint wf_pattern (p : string) : bool :=
  match p with
  | EmptyString => true
  | String c p' =>
      if Ascii.eqb c "\" then
        match p' with
        | EmptyString => false
        | String _ p'' => wf_pattern p''
        end
      else wf_pattern p'
  end.

(** The characters [LIKE] does not take literally. *)
Definition like_special (c : ascii) : bool :=
  Ascii.eqb c "%" || Ascii.eqb c "_" || Ascii.eqb c "\".

Fixpoint plain (s : string) : bool :=
  match s with
  | EmptyString => true
  | String c s' => negb (like_special c) && plain s'
  end.

End Text.

(** ** SQL values and three-valued logic *)

Module Sql.

(** A boolean of SQL: [None] is NULL (unknown). *)
Definition sql_bool := option bool.

Definition sql_and (a b : sql_bool) : sql_bool :=
  match a, b with
  | Some false, _ | _, Some false => Some false
  | Some true, Some true => Some true
  | _, _ => None
  end.

Definition sql_or (a b : sql_bool) : sql_bool :=
  match a, b with
  | Some true, _ | _, Some true => Some true
  | Some false, Some false => Some false
  | _, _ => None
  end.

(** A chain [c1 OR c2 OR ... OR cn]. *)
Definition sql_any (cs : list sql_bool) : sql_bool :=
  fold_right sql_or (Some false) cs.

(** [CASE WHEN c THEN ... ELSE ...]: only a true condition takes the THEN
    branch. *)
Definition is_true (c : sql_bool) : bool :=
  match c with Some true => true | _ => false end.

(** [a = b] on nullable text. *)
Definition text_eq (a b : option string) : sql_bool :=
  match a, b with
  | Some x, Some y => Some (String.eqb x y)
  | _, _ => None
  end.

(** [a LIKE b] on nullable text. *)
Definition text_like (a p : option string) : sql_bool :=
  match a, p with
  | Some x, Some y => Some (Text.like y x)
  | _, _ => None
  end.

(** [a || b] on nullable text. *)
Definition text_concat (a b : option string) : option string :=
  match a, b with
  | Some x, Some y => Some (x ++ y)
  | _, _ => None
  end.

(** [position(sub IN s) = 0] on nullable text. *)
Definition position_is_zero (sub s : option string) : sql_bool :=
  match sub, s with
  | Some x, Some y => Some (Text.position x y =? 0)
  | _, _ => None
  end.

(** Nullable exact numbers. *)
Definition sql_num := option Z.

Definition num_add (a b : sql_num) : sql_num :=
  match a, b with Some x, Some y => Some (x + y) | _, _ => None end.

Definition num_sub (a b : sql_num) : sql_num :=
  match a, b with Some x, Some y => Some (x - y) | _, _ => None end.

Definition num_mul (a b : sql_num) : sql_num :=
  match a, b with Some x, Some y => Some (x * y) | _, _ => None end.

Definition num_abs (a : sql_num) : sql_num := option_map Z.abs a.

Definition num_eq (a b : sql_num) : sql_bool :=
  match a, b with Some x, Some y => Some (x =? y) | _, _ => None end.

(** [COALESCE(a, b)]. *)
Definition coalesce (a b : sql_num) : sql_num :=
  match a with Some _ => a | None => b end.

(** The aggregate [SUM]: NULL inputs are skipped; the sum of no non-NULL
    input is NULL. *)
Fixpoint sum (vs : list sql_num) : sql_num :=
  match vs with
  | [] => None
  | v :: rest =>
      match v, sum rest with
      | Some x, Some y => Some (x + y)
      | Some x, None => Some x
      | None, s => s
      end
  end.

(** A value of any column, as it appears in a grouping key. *)
Inductive value : Type :=
| VNull
| VText (s : string)
| VNum (z : Z).

Definition value_eqb (a b : value) : bool :=
  match a, b with
  | VNull, VNull => true
  | VText x, VText y => String.eqb x y
  | VNum x, VNum y => x =? y
  | _, _ => false
  end.

Fixpoint key_eqb (a b : list value) : bool :=
  match a, b with
  | [], [] => true
  | x :: a', y :: b' => value_eqb x y && key_eqb a' b'
  | _, _ => false
  end.

End Sql.

(** ** The table [sales_data] *)

Module Table.
Import Sql.

(** One row.  The three time columns and the five quantity and price columns
    are the ones the statement names; [attrs] holds the remaining text
    columns ([bu], [product], [customer], ...), a missing entry being NULL. *)
Record row : Type := mk_row {
  ym : option string;
  yq : option string;
  yh : option string;
  mid_man_qty : sql_num;
  mid_man_unit_price_jpy : sql_num;
  maker_unit_price_jpy : sql_num;
  seller_qty : sql_num;
  seller_unit_price_jpy : sql_num;
  attrs : list (string * string)
}.

(** The data store: whether it can be reached, the names of the text columns
    of [sales_data] besides the fixed ones, and the rows. *)
Record store : Type := mk_store {
  reachable : bool;
  text_columns : list string;
  sales_data : list row
}.

Definition time_columns : list string := ["ym"; "yq"; "yh"].

Definition num_columns : list string :=
  ["mid_man_qty"; "mid_man_unit_price_jpy"; "maker_unit_price_jpy";
   "seller_qty"; "seller_unit_price_jpy"].

Definition mem (x : string) (xs : list string) : bool :=
  existsb (String.eqb x) xs.

Definition known_column (db : store) (name : string) : bool :=
  mem name time_columns || mem name num_columns || mem name (text_columns db).

Fixpoint assoc (name : string) (kvs : list (string * string)) : option string :=
  match kvs with
  | [] => None
  | (k, v) :: rest => if String.eqb name k then Some v else assoc name rest
  end.

(** The numeric column of that name (NULL for any other name). *)
Definition num_column (name : string) (r : row) : sql_num :=
  if String.eqb name "mid_man_qty" then mid_man_qty r
  else if String.eqb name "mid_man_unit_price_jpy" then mid_man_unit_price_jpy r
  else if String.eqb name "maker_unit_price_jpy" then maker_unit_price_jpy r
  else if String.eqb name "seller_qty" then seller_qty r
  else if String.eqb name "seller_unit_price_jpy" then seller_unit_price_jpy r
  else None.

Definition of_text (t : option string) : value :=
  match t with Some s => VText s | None => VNull end.

Definition of_num (n : sql_num) : value :=
  match n with Some z => VNum z | None => VNull end.

(** The value of column [name] in row [r]. *)
Definition column (name : string) (r : row) : value :=
  if String.eqb name "ym" then of_text (ym r)
  else if String.eqb name "yq" then of_text (yq r)
  else if String.eqb name "yh" then of_text (yh r)
  else if mem name num_columns then of_num (num_column name r)
  else of_text (assoc name (attrs r)).

End Table.

(** ** The statement *)

Module Query.
Import Sql Table.

(** The arithmetic expressions that fill the [{profit_expr}] slot. *)
Inductive expr : Type :=
| Col (name : string)
| Const (z : Z)
| Coalesce (a b : expr)
| Add (a b : expr)
| Sub (a b : expr)
| Mul (a b : expr).

Fixpoint eval (e : expr) (r : row) : sql_num :=
  match e with
  | Col name => num_column name r
  | Const z => Some z
  | Coalesce a b => coalesce (eval a r) (eval b r)
  | Add a b => num_add (eval a r) (eval b r)
  | Sub a b => num_sub (eval a r) (eval b r)
  | Mul a b => num_mul (eval a r) (eval b r)
  end.

(** The CTE [params]: the three bound arguments [$1], [$2], [$3]. *)
Record params : Type := mk_params {
  p_t1 : option string;
  p_t2 : option string;
  p_time_column : option string
}.

(** The generated statement: what the f-string interpolates
    ([{select_clause}], [{profit_expr}], [{group_by_clause}], [{limit}]).
    The two clauses are kept as the lists of names that the source joins
    with a comma. *)
Record statement : Type := mk_statement {
  select_clause : list string;
  profit_expr : expr;
  group_by_clause : list string;
  limit : Z
}.

(** The condition of [CASE WHEN ( ... )] for the target [t]: the six
    disjuncts of the statement, in its order. *)
Definition when_cond (time_column t : option string) (sd : row) : sql_bool :=
  let tc_is name := text_eq time_column (Some name) in
  let bare delim := position_is_zero (Some delim) t in
  let starts col := text_like col (text_concat t (Some "%")) in
  sql_any
    [ sql_and (tc_is "ym") (text_eq (ym sd) t);
      sql_and (tc_is "yq") (text_eq (yq sd) t);
      sql_and (tc_is "yh") (text_eq (yh sd) t);
      sql_and (sql_and (tc_is "ym") (bare "/")) (starts (ym sd));
      sql_and (sql_and (tc_is "yq") (bare "Q")) (starts (yq sd));
      sql_and (sql_and (tc_is "yh") (bare "H")) (starts (yh sd)) ].

(** Does the row count for target [t]? *)
Definition row_matches (time_column t : option string) (sd : row) : bool :=
  is_true (when_cond time_column t sd).

(** [CASE WHEN ( ... ) THEN {profit_expr} ELSE 0 END]. *)
Definition case_profit (e : expr) (time_column t : option string) (sd : row)
  : sql_num :=
  if row_matches time_column t sd then eval e sd else Some 0.

End Query.

(** ** Running the statement *)

Module Exec.
Import Sql Table Query.

(** [ROUND(q, places)] on [numeric]: to the nearest multiple of
    [10^-places], ties away from zero. *)
Definition round_half_away (q : Q) : Z :=
  let n := Qnum q in
  let d := Zpos (Qden q) in
  Z.sgn n * ((2 * Z.abs n + d) / (2 * d)).

Definition numeric_round (q : Q) (places : nat) : Q :=
  let scale := 10 ^ Z.of_nat places in
  Qmake (round_half_away (q * inject_Z scale)) (Z.to_pos scale).

(** The quotient [a / b] of two whole [numeric] values, for [b > 0], as
    the server computes it.  A [numeric] is held in digits of base 10000;
    [leading] gives, for a number that is not negative, how many such
    digits follow the first one (its weight) and the first digit, zero
    having weight 0 and first digit 0. *)
Fixpoint leading (fuel : nat) (n : Z) : Z * Z :=
  match fuel with
  | O => (0, n)
  | S fuel' =>
      if n <? 10000 then (0, n)
      else let '(w, d) := leading fuel' (n / 10000) in (w + 1, d)
  end.

Definition weight_and_first_digit (n : Z) : Z * Z :=
  leading (Z.to_nat (Z.log2 (Z.abs n))) (Z.abs n).

(** The number of decimals the server gives the quotient: enough for 16
    significant digits, judged from the weights and first digits of the
    operands, and between 0 and 1000. *)
Definition div_scale (a b : Z) : Z :=
  let '(w1, d1) := weight_and_first_digit a in
  let '(w2, d2) := weight_and_first_digit b in
  let qweight := w1 - w2 - (if d1 <=? d2 then 1 else 0) in
  Z.min 1000 (Z.max 0 (16 - qweight * 4)).

(** The exact quotient rounded to that many decimals, ties away from
    zero. *)
Definition server_div (a b : Z) : Q :=
  let unit := 10 ^ div_scale a b in
  Qmake (round_half_away (Qmake (a * unit) (Z.to_pos b))) (Z.to_pos unit).

(** [f] on every element, unless it fails on one. *)
Fixpoint all_or_none {A B : Type} (f : A -> option B) (l : list A)
  : option (list B) :=
  match l with
  | [] => Some []
  | x :: rest =>
      match f x, all_or_none f rest with
      | Some y, Some ys => Some (y :: ys)
      | _, _ => None
      end
  end.

(** A row of the CTE [calc]. *)
Record calc_row : Type := mk_calc {
  c_key : list value;
  c_profit_t1_jpy : sql_num;
  c_profit_t2_jpy : sql_num
}.

(** A row of the CTE [final]. *)
Record final_row : Type := mk_final {
  f_key : list value;
  f_profit_t1_jpy : sql_num;
  f_profit_t2_jpy : sql_num;
  f_profit_change : sql_num;
  f_total_profit_change : sql_num
}.

(** A row of the result (ProfitChangeRecord): the grouping values in the
    order of [group_by], then the four computed columns. *)
Record record : Type := mk_record {
  key : list value;
  profit_t1_jpy : sql_num;
  profit_t2_jpy : sql_num;
  profit_change : sql_num;
  percent_profit_change : option Q
}.

Definition group_key (cols : list string) (r : row) : list value :=
  map (fun c => column c r) cols.

(** The distinct keys, each at its first occurrence. *)
Fixpoint distinct (ks : list (list value)) : list (list value) :=
  match ks with
  | [] => []
  | k :: rest => k :: filter (fun k' => negb (key_eqb k k')) (distinct rest)
  end.

(** The rows of one group. *)
Definition group_rows (cols : list string) (k : list value) (rows : list row)
  : list row :=
  filter (fun r => key_eqb (group_key cols r) k) rows.

(** [calc]: one row per group, the profit summed over the rows of the group
    that match [t1], and over those that match [t2]. *)
Definition calc (st : statement) (ps : params) (rows : list row)
  : list calc_row :=
  map (fun k =>
         let g := group_rows (group_by_clause st) k rows in
         mk_calc k
           (sum (map (case_profit (profit_expr st) (p_time_column ps) (p_t1 ps)) g))
           (sum (map (case_profit (profit_expr st) (p_time_column ps) (p_t2 ps)) g)))
      (distinct (map (group_key (group_by_clause st)) rows)).

(** [final]: the change of each group and, by the window [SUM(...) OVER ()],
    the sum of the changes of all groups. *)
Definition change (c : calc_row) : sql_num :=
  num_sub (c_profit_t2_jpy c) (c_profit_t1_jpy c).

Definition final (cs : list calc_row) : list final_row :=
  let total := sum (map change cs) in
  map (fun c => mk_final (c_key c) (c_profit_t1_jpy c) (c_profit_t2_jpy c)
                         (change c) total) cs.

(** The sort key of [ORDER BY ABS(profit_change) DESC]: may [a] stand before
    [b]?  In descending order NULL comes first. *)
Definition before (a b : sql_num) : bool :=
  match num_abs a, num_abs b with
  | None, _ => true
  | Some _, None => false
  | Some x, Some y => y <=? x
  end.

Fixpoint insert {A : Type} (f : A -> sql_num) (x : A) (l : list A) : list A :=
  match l with
  | [] => [x]
  | y :: l' => if before (f y) (f x) then y :: insert f x l' else x :: y :: l'
  end.

(** The order among rows of equal key is not fixed by the statement, and
    the server may return them in another order; this sort keeps them in
    their order of arrival. *)
Definition order_by {A : Type} (f : A -> sql_num) (l : list A) : list A :=
  fold_left (fun acc x => insert f x acc) l [].

Section WithDivision.

(** The quotient of two [numeric] values with a divisor that is not zero;
    [server_div] is the one of the server. *)
Variable numeric_div : Z -> Z -> Q.

(** The last [CASE]: 0 when the total is 0, else the rounded share.  The
    ELSE branch is evaluated only when the WHEN condition is not true: a
    NULL total yields NULL there, and a divisor 0 would make the server
    raise "division by zero", which is the outer [None]. *)
Definition percent (profit_change total_profit_change : sql_num)
  : option (option Q) :=
  if is_true (num_eq total_profit_change (Some 0)) then Some (Some 0%Q)
  else match profit_change, num_abs total_profit_change with
       | Some pc, Some a =>
           if a =? 0 then None
           else Some (Some (numeric_round (numeric_div pc a * 100) 2))
       | _, _ => Some None
       end.

(** The select list on one row of [final]; [None] when it raises. *)
Definition project (f : final_row) : option record :=
  match percent (f_profit_change f) (f_total_profit_change f) with
  | Some p =>
      Some (mk_record (f_key f) (f_profit_t1_jpy f) (f_profit_t2_jpy f)
                      (f_profit_change f) p)
  | None => None
  end.

Definition max_bigint : Z := 9223372036854775807.

Fixpoint nodupb (xs : list string) : bool :=
  match xs with
  | [] => true
  | x :: rest => negb (mem x rest) && nodupb rest
  end.

(** The statements this model runs: those that group by and select a
    non-empty list of distinct columns of [sales_data], named as the table
    names them, with a [LIMIT] that is a non-negative [bigint].  On these
    the server does not reject the statement.  Any other statement is
    answered by [None]; the server rejects most of them (an unknown or
    repeated column, an empty list, a negative limit), but not all: a
    [group_by] entry that names a column of [params], that differs from a
    column name in letter case only, or that is an expression, is outside
    the model. *)
Definition accepted (db : store) (st : statement) : bool :=
  match group_by_clause st with [] => false | _ => true end &&
  forallb (known_column db) (group_by_clause st) &&
  nodupb (select_clause st) &&
  (0 <=? limit st) && (limit st <=? max_bigint).

(** The whole statement on the table: [None] when the server raises. *)
Definition run (db : store) (st : statement) (ps : params)
  : option (list record) :=
  if accepted db st then
    match all_or_none project (final (calc st ps (sales_data db))) with
    | Some rows =>
        Some (firstn (Z.to_nat (limit st)) (order_by profit_change rows))
    | None => None
    end
  else None.

End WithDivision.

End Exec.

(** ** The Python functions *)

Module Py.
Import Sql Table Query Exec.

(** The exceptions a call can end with. *)
Inductive exn : Type :=
| AssertionError (msg : string)
| ValueError
| KeyError (k : string)
| IndexError
| StoreError.

(** What a call does to the outside, in order. *)
Inductive event : Type :=
| PoolCreated
| Acquired
| QueryBuilt (sql : statement)
| Fetched (sql : statement) (args : params)
| Released
| PoolClosed.

(** A computation: from the trace so far to an exception or a value, and the
    trace after it (effects done before an exception stay done). *)
Definition M (A : Type) : Type := list event -> (exn + A) * list event.

Definition ret {A : Type} (a : A) : M A := fun tr => (inr a, tr).

Definition raise {A : Type} (e : exn) : M A := fun tr => (inl e, tr).

Definition bind {A B : Type} (m : M A) (k : A -> M B) : M B :=
  fun tr =>
    match m tr with
    | (inl e, tr') => (inl e, tr')
    | (inr a, tr') => k a tr'
    end.

Definition emit (e : event) : M unit := fun tr => (inr tt, (tr ++ [e])%list).

(** [try: m finally: cleanup]. *)
Definition finally {A : Type} (m : M A) (cleanup : M unit) : M A :=
  fun tr =>
    match m tr with
    | (r, tr') =>
        match cleanup tr' with
        | (inl e, tr'') => (inl e, tr'')
        | (inr _, tr'') => (r, tr'')
        end
    end.

Declare Scope py_scope.
Delimit Scope py_scope with py.
Notation "x <- m ;; k" := (bind m (fun x => k))
  (at level 61, m at next level, right associativity) : py_scope.
Notation "m ;;; k" := (bind m (fun _ => k))
  (at level 61, right associativity) : py_scope.
Local Open Scope py_scope.

(** [assert cond, msg], assertions being enabled as they are by default. *)
Definition py_assert (cond : bool) (msg : string) : M unit :=
  if cond then ret tt else raise (AssertionError msg).

(** [a, b = xs]. *)
Definition unpack2 (xs : list string) : M (string * string) :=
  match xs with
  | [a; b] => ret (a, b)
  | _ => raise ValueError
  end.

(** [xs[i]] for a non-negative [i]. *)
Definition getitem (xs : list string) (i : nat) : M string :=
  match nth_error xs i with
  | Some x => ret x
  | None => raise IndexError
  end.

(** [d[k]] on a dict with text keys. *)
Fixpoint lookup {V : Type} (d : list (string * V)) (k : string) : M V :=
  match d with
  | [] => raise (KeyError k)
  | (k', v) :: rest => if String.eqb k k' then ret v else lookup rest k
  end.

Definition nvl (name : string) : expr := Coalesce (Col name) (Const 0).

(** The dict [profit_expressions]. *)
Definition profit_expressions : list (string * expr) :=
  [ ("middle_man",
      Mul (nvl "mid_man_qty")
          (Sub (nvl "mid_man_unit_price_jpy") (nvl "maker_unit_price_jpy")));
    ("seller",
      Mul (nvl "seller_qty")
          (Sub (nvl "seller_unit_price_jpy") (nvl "mid_man_unit_price_jpy")));
    ("overall",
      Add (Mul (nvl "mid_man_qty")
               (Sub (nvl "mid_man_unit_price_jpy") (nvl "maker_unit_price_jpy")))
          (Mul (nvl "seller_qty")
               (Sub (nvl "seller_unit_price_jpy") (nvl "mid_man_unit_price_jpy")))) ].

Definition default_group_by : list string := ["bu"; "product"; "customer"].
Definition default_limit : Z := 10.

Section WithDivision.

Variable numeric_div : Z -> Z -> Q.

(** [conn.fetch(sql, t1, t2, time_column)]. *)
Definition fetch (conn : store) (sql : statement) (t1 t2 time_column : string)
  : M (list record) :=
  let args := mk_params (Some t1) (Some t2) (Some time_column) in
  emit (Fetched sql args) ;;;
  match run numeric_div conn sql args with
  | Some rows => ret rows
  | None => raise StoreError
  end.

(** The query builder: the length check, the two clauses, the lookup of the
    expression, the statement, and its execution on the connection. *)
Definition get_profit_change_by_segment
    (conn : store) (profit_type time_column : string)
    (time_values group_by : list string) (limit : Z) : M (list record) :=
  py_assert (Nat.eqb (List.length time_values) 2)
            "Exactly two time values required" ;;;
  ts <- unpack2 time_values ;;
  let '(t1, t2) := ts in
  let group_by_clause := group_by in
  let select_clause := group_by in
  profit_expr <- lookup profit_expressions profit_type ;;
  let sql := mk_statement select_clause profit_expr group_by_clause limit in
  emit (QueryBuilt sql) ;;;
  fetch conn sql t1 t2 time_column.

(** [asyncpg.create_pool(...)]. *)
Definition create_pool (db : store) : M store :=
  if reachable db then emit PoolCreated ;;; ret db else raise StoreError.

(** A pool is created, a connection is taken from it for the time of the
    call and given back on every way out, and the pool is closed when the
    call returned.  [dict(row)] keeps the columns of each record. *)
Definition fetch_data
    (db : store) (profit_type time_column : string)
    (time_values group_by : list string) (limit : Z) : M (list record) :=
  pool <- create_pool db ;;
  rows <- (emit Acquired ;;;
           finally (get_profit_change_by_segment pool profit_type time_column
                      time_values group_by limit)
                   (emit Released)) ;;
  emit PoolClosed ;;;
  ret rows.

(** The [if]/[elif]/[else] at the head of [get_profit_change]: the
    granularity read off a time value. *)
Definition infer_time_column (tv : string) : string :=
  if Text.contains "Q" tv then "yq"
  else if Text.contains "H" tv then "yh"
  else "ym".

(** The tool.  Its [time_column] argument is rebound before it is used. *)
Definition get_profit_change
    (db : store) (profit_type time_column : string)
    (time_values group_by : list string) (limit : Z) : M (list record) :=
  tv0 <- getitem time_values 0 ;;
  let time_column := infer_time_column tv0 in
  rows <- fetch_data db profit_type time_column time_values group_by limit ;;
  ret rows.

End WithDivision.

End Py.

(** ** The vocabulary of the properties *)

Module Spec.
Import Text Sql Table Query Exec Py.

(** The rule as the specification words it: the column value equals the
    target, or the target has no delimiter and the value starts with it. *)
Definition spec_matches (delim t v : string) : bool :=
  String.eqb v t || (negb (contains delim t) && String.prefix t v).

(** The delimiter of each granularity. *)
Definition delimiter (time_column : string) : string :=
  if String.eqb time_column "ym" then "/"
  else if String.eqb time_column "yq" then "Q"
  else "H".

(** The column a granularity selects. *)
Definition selected (time_column : string) (sd : row) : option string :=
  if String.eqb time_column "ym" then ym sd
  else if String.eqb time_column "yq" then yq sd
  else if String.eqb time_column "yh" then yh sd
  else None.

(** What the statement computes for one granularity: equality, or no
    delimiter in the target and [LIKE target || '%']. *)
Definition like_matches (delim t v : string) : bool :=
  String.eqb v t || ((position delim t =? 0) && like (t ++ "%") v).

(** Replacing the values of the three time columns of a row. *)
Definition with_times (a b c : option string) (sd : row) : row :=
  mk_row a b c (mid_man_qty sd) (mid_man_unit_price_jpy sd)
         (maker_unit_price_jpy sd) (seller_qty sd) (seller_unit_price_jpy sd)
         (attrs sd).

(** The entry of [profit_expressions] under a name, if any. *)
Definition expression (profit_type : string) : option expr :=
  match lookup profit_expressions profit_type [] with
  | (inr e, _) => Some e
  | (inl _, _) => None
  end.

(** The profit of one row under a variant. *)
Definition profit (profit_type : string) (sd : row) : sql_num :=
  match expression profit_type with
  | Some e => eval e sd
  | None => None
  end.

(** The number an expression yields on a row, 0 standing for NULL. *)
Definition amount (e : expr) (sd : row) : Z :=
  match eval e sd with Some z => z | None => 0 end.

(** An expression that is NULL on no row. *)
Definition never_null (e : expr) : Prop :=
  forall sd, eval e sd = Some (amount e sd).

(** Does the character occur in the text? *)
Definition occurs (c : ascii) (s : string) : Prop :=
  In c (list_ascii_of_string s).

(** The plain sum of a list of numbers. *)
Definition total (zs : list Z) : Z := fold_right Z.add 0 zs.

(** Under the sort key [f], [a] may stand before [b]. *)
Definition precedes {A : Type} (f : A -> sql_num) (a b : A) : Prop :=
  before (f a) (f b) = true.

(** The profit of the rows of [g] that count for target [t], summed. *)
Definition matched_profit (e : expr) (time_column t : option string)
    (g : list row) : Z :=
  total (map (amount e) (filter (row_matches time_column t) g)).

(** The two sums of the group of key [k], as numbers. *)
Definition sum_t1 (st : statement) (ps : params) (rows : list row)
    (k : list value) : Z :=
  matched_profit (profit_expr st) (p_time_column ps) (p_t1 ps)
    (group_rows (group_by_clause st) k rows).

Definition sum_t2 (st : statement) (ps : params) (rows : list row)
    (k : list value) : Z :=
  matched_profit (profit_expr st) (p_time_column ps) (p_t2 ps)
    (group_rows (group_by_clause st) k rows).

(** The value of the last [CASE] where it does not raise. *)
Definition percent_value (numeric_div : Z -> Z -> Q)
    (profit_change total_profit_change : sql_num) : option Q :=
  match percent numeric_div profit_change total_profit_change with
  | Some p => p
  | None => None
  end.

(** The record of a row of [final] where the select list does not raise. *)
Definition record_of (numeric_div : Z -> Z -> Q) (f : final_row) : record :=
  mk_record (f_key f) (f_profit_t1_jpy f) (f_profit_t2_jpy f)
            (f_profit_change f)
            (percent_value numeric_div (f_profit_change f)
                           (f_total_profit_change f)).

(** The share as the specification words it, in exact arithmetic:
    [round(profit_change / |total_profit_change| * 100, 2)]. *)
Definition spec_percent (profit_change total_profit_change : Z) : Q :=
  numeric_round
    (inject_Z profit_change / inject_Z (Z.abs total_profit_change) * 100) 2.

(** The window sum: the changes of all groups, added up. *)
Definition total_profit_change (st : statement) (ps : params)
    (rows : list row) : Z :=
  total (map (fun c => sum_t2 st ps rows (c_key c) - sum_t1 st ps rows (c_key c))
             (calc st ps rows)).

End Spec.

(** ** A small table to run the model on *)

Module Sample.
Import Sql Table Query Exec Py.

(** A row whose month is May 2022. *)
Definition may_2022 : row :=
  mk_row (Some "2022/05") (Some "2022 Q2") (Some "2022 H1")
         (Some 1) (Some 120) (Some 100) (Some 1) (Some 150)
         [("bu", "A")].

(** A sale of business unit [bu] in month [m]: [qty] units bought by the
    middle man at [maker] and sold at [price]. *)
Definition sale (m bu : string) (qty price maker : Z) : row :=
  mk_row (Some m) None None (Some qty) (Some price) (Some maker) None None
         [("bu", bu)].

(** Unit A goes from 100 to 150, unit B from 200 to 140, unit C from 0 to
    21 between 2022 and 2023: no two changes have the same absolute
    value. *)
Definition shop : store :=
  mk_store true ["bu"; "product"; "customer"]
    [ sale "2022/01" "A" 1 100 0; sale "2023/01" "A" 1 150 0;
      sale "2022/05" "B" 1 200 0; sale "2023/02" "B" 1 140 0;
      sale "2023/02" "C" 3 7 0 ].

(** The records of [shop] for 2022 against 2023; the changes add up to
    11. *)
Definition record_A : record :=
  mk_record [VText "A"] (Some 100) (Some 150) (Some 50) (Some (45455 # 100)).

Definition record_B : record :=
  mk_record [VText "B"] (Some 200) (Some 140) (Some (-60))
            (Some (-54545 # 100)).

Definition record_C : record :=
  mk_record [VText "C"] (Some 0) (Some 21) (Some 21) (Some (19091 # 100)).

(** The statement and the arguments of the call on [shop] below. *)
Definition shop_statement (limit : Z) : statement :=
  mk_statement ["bu"]
    (Mul (nvl "mid_man_qty")
         (Sub (nvl "mid_man_unit_price_jpy") (nvl "maker_unit_price_jpy")))
    ["bu"] limit.

Definition shop_params : params :=
  mk_params (Some "2022") (Some "2023") (Some "ym").

Definition shop_trace (limit : Z) : list event :=
  [QueryBuilt (shop_statement limit);
   Fetched (shop_statement limit) shop_params].

(** A call on [shop], by business unit, with room for ten records. *)
Definition shop_run (profit_type time_column : string)
    (time_values : list string) : (exn + list record) * list event :=
  get_profit_change_by_segment server_div shop profit_type time_column
    time_values ["bu"] 10 [].

(** The records of [shop] for 2022 against 2022, and for 2023 against
    2022. *)
Definition record_A_2022 : record :=
  mk_record [VText "A"] (Some 100) (Some 100) (Some 0) (Some 0%Q).

Definition record_A_back : record :=
  mk_record [VText "A"] (Some 150) (Some 100) (Some (-50))
            (Some (-45455 # 100)).

Definition shop_same_year : list record :=
  [ record_A_2022;
    mk_record [VText "B"] (Some 200) (Some 200) (Some 0) (Some 0%Q);
    mk_record [VText "C"] (Some 0) (Some 0) (Some 0) (Some 0%Q) ].

Definition shop_swapped : list record :=
  [ mk_record [VText "B"] (Some 140) (Some 200) (Some 60)
              (Some (54545 # 100));
    record_A_back;
    mk_record [VText "C"] (Some 21) (Some 0) (Some (-21))
              (Some (-19091 # 100)) ].

(** A table without rows. *)
Definition empty_store : store :=
  mk_store true ["bu"; "product"; "customer"] [].

(** A resale of unit [bu] in month [m]: the middle man buys [q1] units at
    [p0] and sells them at [p1]; the seller sells [q2] units at [p2]. *)
Definition resale (m bu : string) (q1 p1 p0 q2 p2 : Z) : row :=
  mk_row (Some m) None None (Some q1) (Some p1) (Some p0) (Some q2) (Some p2)
         [("bu", bu)].

Definition market : store :=
  mk_store true ["bu"; "product"; "customer"]
    [ resale "2022/01" "A" 1 100 80 1 130;
      resale "2023/01" "A" 2 100 80 2 140 ].

Definition market_run (profit_type : string)
  : (exn + list record) * list event :=
  get_profit_change_by_segment server_div market profit_type "ym"
    ["2022"; "2023"] ["bu"] 10 [].

(** The one record of [market]: unit A, with its two profits. *)
Definition market_record (t1 t2 : Z) : record :=
  mk_record [VText "A"] (Some t1) (Some t2) (Some (t2 - t1))
            (Some (10000 # 100)).

(** Two units in 2023 only: A gains 10^16 and B gains 7990000000000000001,
    which add up to 8 * 10^18 + 1. *)
Definition ledger : store :=
  mk_store true ["bu"; "product"; "customer"]
    [ sale "2023/01" "A" 1 10000000000000000 0;
      sale "2023/02" "B" 1 7990000000000000001 0 ].

Definition ledger_params : params :=
  mk_params (Some "2022") (Some "2023") (Some "ym").

(** The record of unit A of [ledger]. *)
Definition ledger_A : record :=
  mk_record [VText "A"] (Some 0) (Some 10000000000000000)
            (Some 10000000000000000) (Some (13 # 100)).

(** The expression of the middle man. *)
Definition middle_man_expr : expr :=
  Mul (nvl "mid_man_qty")
      (Sub (nvl "mid_man_unit_price_jpy") (nvl "maker_unit_price_jpy")).

(** A store that cannot be reached. *)
Definition offline : store :=
  mk_store false ["bu"; "product"; "customer"] [].

(** Two units whose changes cancel: A from 100 to 150, B from 200 to 150. *)
Definition balanced : store :=
  mk_store true ["bu"; "product"; "customer"]
    [ sale "2022/01" "A" 1 100 0; sale "2023/01" "A" 1 150 0;
      sale "2022/05" "B" 1 200 0; sale "2023/02" "B" 1 150 0 ].

End Sample.

(** * Properties *)

(** ** Text and [LIKE] *)

Module TextFacts.
Import Text.

Lemma prefix_nil (s : string) : String.prefix "" s = true.
Proof. destruct s; reflexivity. Qed.

Lemma contains_nil (s : string) : contains "" s = true.
Proof. destruct s; reflexivity. Qed.

Lemma position_cons (sub : string) (c : ascii) (s : string) :
  position sub (String c s) =
  if String.prefix sub (String c s) then 1
  else if position sub s =? 0 then 0 else position sub s + 1.
Proof. reflexivity. Qed.

Lemma contains_cons (sub : string) (c : ascii) (s : string) :
  contains sub (String c s) = String.prefix sub (String c s) || contains sub s.
Proof. reflexivity. Qed.

Lemma position_nonneg (sub s : string) : 0 <= position sub s.
Proof.
  induction s as [|c s IH].
  - destruct sub; simpl; lia.
  - rewrite position_cons.
    destruct (String.prefix sub (String c s)); [lia|].
    destruct (position sub s =? 0); lia.
Qed.

(** [position] is 0 exactly when the substring does not occur. *)
Lemma position_zero (sub s : string) :
  (position sub s =? 0) = negb (contains sub s).
Proof.
  induction s as [|c s IH].
  - destruct sub; reflexivity.
  - rewrite position_cons, contains_cons.
    destruct (String.prefix sub (String c s)); [reflexivity|].
    simpl orb. rewrite <- IH.
    destruct (position sub s =? 0) eqn:Hz; [reflexivity|].
    apply Z.eqb_neq in Hz. apply Z.eqb_neq.
    pose proof (position_nonneg sub s). lia.
Qed.

(** A one-character needle occurs in [s] iff that character is in [s]. *)
Lemma contains_char (c : ascii) (s : string) :
  contains (String c "") s = true <-> In c (list_ascii_of_string s).
Proof.
  induction s as [|d s IH].
  - simpl. split; [discriminate | tauto].
  - rewrite contains_cons. cbn [String.prefix list_ascii_of_string In].
    rewrite prefix_nil. destruct (ascii_dec c d) as [->|Hne].
    + simpl. split; auto.
    + simpl orb. rewrite IH.
      split; [auto | intros [H|H]; [congruence | exact H]].
Qed.

(** [t%] read as a pattern is well formed whatever [t] is: the final [%] is
    either a wildcard or the character a trailing backslash of [t] escapes. *)
Lemma wf_pattern_percent (t : string) : wf_pattern (t ++ "%") = true.
Proof.
  assert (H : forall t, wf_pattern (t ++ "%") = true /\
                        forall c, wf_pattern (String c (t ++ "%")) = true).
  { induction t0 as [|d t0 [IH1 IH2]].
    - split; [reflexivity|]. intros c. simpl.
      destruct (Ascii.eqb c "\"); reflexivity.
    - split; [apply IH2|]. intros c. simpl.
      destruct (Ascii.eqb c "\"); [exact IH1 | apply IH2]. }
  apply H.
Qed.

(** The pattern [%] alone matches every text. *)
Lemma like_percent (v : string) : like "%" v = true.
Proof.
  induction v as [|d v IH]; [reflexivity|].
  simpl in *. exact IH.
Qed.

(** For a target without [%], [_] and backslash, [LIKE t || '%'] is the
    prefix test. *)
Lemma like_prefix_plain (t : string) :
  plain t = true -> forall v, like (t ++ "%") v = String.prefix t v.
Proof.
  induction t as [|c t IH]; intros Hp v.
  - rewrite prefix_nil. apply like_percent.
  - simpl in Hp. apply andb_true_iff in Hp as [Hc Ht].
    unfold like_special in Hc. apply negb_true_iff in Hc.
    apply orb_false_iff in Hc as [Hc Hb].
    apply orb_false_iff in Hc as [Hpc Hu].
    simpl. rewrite Hpc, Hu, Hb.
    destruct v as [|d v]; [reflexivity|].
    rewrite (IH Ht v). cbn [String.prefix].
    destruct (Ascii.eqb_spec c d) as [->|Hne].
    + destruct (ascii_dec d d); [reflexivity | congruence].
    + destruct (ascii_dec c d); [congruence | reflexivity].
Qed.

End TextFacts.

(** ** Which rows count for a target *)

Module MatchFacts.
Import Text Sql Table Query Spec Sample TextFacts.

Lemma sql_and_false_l (b : sql_bool) : sql_and (Some false) b = Some false.
Proof. reflexivity. Qed.

Lemma sql_and_true_l (b : sql_bool) : sql_and (Some true) b = b.
Proof. destruct b as [[]|]; reflexivity. Qed.

Lemma sql_or_false_l (b : sql_bool) : sql_or (Some false) b = b.
Proof. destruct b as [[]|]; reflexivity. Qed.

Lemma sql_or_false_r (b : sql_bool) : sql_or b (Some false) = b.
Proof. destruct b as [[]|]; reflexivity. Qed.

Lemma is_true_or (a b : sql_bool) :
  is_true (sql_or a b) = is_true a || is_true b.
Proof. destruct a as [[]|], b as [[]|]; reflexivity. Qed.

(** With a granularity other than the three, no row counts. *)
Lemma when_cond_other (tc t : string) (sd : row) :
  tc <> "ym" -> tc <> "yq" -> tc <> "yh" ->
  when_cond (Some tc) (Some t) sd = Some false.
Proof.
  intros H1 H2 H3. unfold when_cond, sql_any, text_eq.
  apply String.eqb_neq in H1, H2, H3. rewrite H1, H2, H3.
  reflexivity.
Qed.

(** The condition, granularity by granularity. *)
Lemma row_matches_selected (tc t : string) (sd : row) :
  In tc time_columns ->
  row_matches (Some tc) (Some t) sd =
  match selected tc sd with
  | Some v => like_matches (delimiter tc) t v
  | None => false
  end.
Proof.
  intros [<-|[<-|[<-|[]]]];
    unfold row_matches, when_cond, sql_any, selected, delimiter, like_matches;
    cbn [fold_right text_eq String.eqb Ascii.eqb Bool.eqb];
    rewrite ?sql_and_false_l, ?sql_and_true_l, ?sql_or_false_l, ?sql_or_false_r.
  - destruct (ym sd) as [v|];
      cbn [text_eq position_is_zero text_concat text_like].
    + rewrite is_true_or.
      destruct (String.eqb v t), (position "/" t =? 0), (like (t ++ "%") v);
        reflexivity.
    + destruct (position "/" t =? 0); reflexivity.
  - destruct (yq sd) as [v|];
      cbn [text_eq position_is_zero text_concat text_like].
    + rewrite is_true_or.
      destruct (String.eqb v t), (position "Q" t =? 0), (like (t ++ "%") v);
        reflexivity.
    + destruct (position "Q" t =? 0); reflexivity.
  - destruct (yh sd) as [v|];
      cbn [text_eq position_is_zero text_concat text_like].
    + rewrite is_true_or.
      destruct (String.eqb v t), (position "H" t =? 0), (like (t ++ "%") v);
        reflexivity.
    + destruct (position "H" t =? 0); reflexivity.
Qed.

(** On a target that has none of the characters [LIKE] treats specially, the
    statement computes the rule of the specification. *)
Lemma row_matches_plain (tc t : string) (sd : row) :
  In tc time_columns -> plain t = true ->
  row_matches (Some tc) (Some t) sd =
  match selected tc sd with
  | Some v => spec_matches (delimiter tc) t v
  | None => false
  end.
Proof.
  intros Htc Hp. rewrite (row_matches_selected tc t sd Htc).
  destruct (selected tc sd) as [v|]; [|reflexivity].
  unfold like_matches, spec_matches.
  rewrite position_zero, (like_prefix_plain t Hp). reflexivity.
Qed.

(** The two scenarios of the specification. *)
Lemma year_matches_by_prefix (sd : row) (v : string) :
  ym sd = Some v ->
  row_matches (Some "ym") (Some "2022") sd = String.prefix "2022" v.
Proof.
  intros Hv.
  rewrite (row_matches_plain "ym" "2022" sd); [|simpl; auto|reflexivity].
  unfold selected. cbn [String.eqb Ascii.eqb Bool.eqb]. rewrite Hv.
  unfold spec_matches, delimiter.
  change (negb (contains _ "2022")) with true.
  destruct (String.eqb_spec v "2022") as [->|]; [reflexivity|].
  reflexivity.
Qed.

Lemma month_matches_exactly (sd : row) :
  row_matches (Some "ym") (Some "2022/05") sd = true <->
  ym sd = Some "2022/05".
Proof.
  rewrite (row_matches_plain "ym" "2022/05" sd); [|simpl; auto|reflexivity].
  unfold selected. cbn [String.eqb Ascii.eqb Bool.eqb].
  destruct (ym sd) as [v|]; [|split; discriminate].
  unfold spec_matches, delimiter.
  change (negb (contains _ "2022/05")) with false.
  rewrite andb_false_l, orb_false_r.
  rewrite String.eqb_eq. split; congruence.
Qed.

(** C1.  The statement does not compute the rule "equal, or no delimiter and
    starts with the target" on every target: [_] in a target is read by
    [LIKE] as "any one character".  With [time_column = "ym"] and the target
    ["20_2"], the row of May 2022 counts, though its month neither equals
    the target nor starts with it. *)
Theorem like_wildcard_counts_non_prefix_row :
  row_matches (Some "ym") (Some "20_2") may_2022 = true /\
  ym may_2022 = Some "2022/05" /\
  spec_matches (delimiter "ym") "20_2" "2022/05" = false.
Proof. repeat split. Qed.

Lemma when_cond_ym (t : option string) (sd : row) :
  when_cond (Some "ym") t sd =
  sql_or (text_eq (ym sd) t)
         (sql_and (position_is_zero (Some "/") t)
                  (text_like (ym sd) (text_concat t (Some "%")))).
Proof.
  unfold when_cond, sql_any.
  cbn [fold_right text_eq String.eqb Ascii.eqb Bool.eqb].
  rewrite ?sql_and_false_l, ?sql_and_true_l, ?sql_or_false_l, ?sql_or_false_r.
  reflexivity.
Qed.

Lemma when_cond_yq (t : option string) (sd : row) :
  when_cond (Some "yq") t sd =
  sql_or (text_eq (yq sd) t)
         (sql_and (position_is_zero (Some "Q") t)
                  (text_like (yq sd) (text_concat t (Some "%")))).
Proof.
  unfold when_cond, sql_any.
  cbn [fold_right text_eq String.eqb Ascii.eqb Bool.eqb].
  rewrite ?sql_and_false_l, ?sql_and_true_l, ?sql_or_false_l, ?sql_or_false_r.
  reflexivity.
Qed.

Lemma when_cond_yh (t : option string) (sd : row) :
  when_cond (Some "yh") t sd =
  sql_or (text_eq (yh sd) t)
         (sql_and (position_is_zero (Some "H") t)
                  (text_like (yh sd) (text_concat t (Some "%")))).
Proof.
  unfold when_cond, sql_any.
  cbn [fold_right text_eq String.eqb Ascii.eqb Bool.eqb].
  rewrite ?sql_and_false_l, ?sql_and_true_l, ?sql_or_false_l, ?sql_or_false_r.
  reflexivity.
Qed.

(** C7.  Under each granularity the condition reads the row through the
    selected column only: whatever values the two other time columns are
    given (NULL included), the row counts or not as before. *)
Theorem only_selected_column_is_read (t : option string) (sd : row)
    (a b : option string) :
  row_matches (Some "ym") t (with_times (ym sd) a b sd) =
    row_matches (Some "ym") t sd /\
  row_matches (Some "yq") t (with_times a (yq sd) b sd) =
    row_matches (Some "yq") t sd /\
  row_matches (Some "yh") t (with_times a b (yh sd) sd) =
    row_matches (Some "yh") t sd.
Proof.
  unfold row_matches.
  rewrite !when_cond_ym, !when_cond_yq, !when_cond_yh.
  repeat split.
Qed.

End MatchFacts.

(** ** The three profit expressions *)

Module ProfitFacts.
Import Sql Table Query Py Spec.

(** [COALESCE(col, 0)] is never NULL. *)
Lemma nvl_some (name : string) (sd : row) :
  exists z, eval (nvl name) sd = Some z.
Proof.
  unfold nvl. cbn [eval]. destruct (num_column name sd) as [z|].
  - exists z. reflexivity.
  - exists 0. reflexivity.
Qed.

(** None of the three expressions is ever NULL, whatever the row holds. *)
Lemma profit_expressions_total (name : string) (e : expr) (sd : row) :
  In (name, e) profit_expressions -> eval e sd = Some (amount e sd).
Proof.
  assert (Hmul : forall q a b,
            exists z, eval (Mul (nvl q) (Sub (nvl a) (nvl b))) sd = Some z).
  { intros q a b.
    destruct (nvl_some q sd) as [x Hx], (nvl_some a sd) as [y Hy],
             (nvl_some b sd) as [z Hz].
    exists (x * (y - z)). cbn [eval]. rewrite Hx, Hy, Hz. reflexivity. }
  unfold amount.
  intros [H|[H|[H|[]]]]; inversion H; subst; clear H.
  - destruct (Hmul "mid_man_qty" "mid_man_unit_price_jpy"
                   "maker_unit_price_jpy") as [z ->]. reflexivity.
  - destruct (Hmul "seller_qty" "seller_unit_price_jpy"
                   "mid_man_unit_price_jpy") as [z ->]. reflexivity.
  - cbn [eval].
    destruct (Hmul "mid_man_qty" "mid_man_unit_price_jpy"
                   "maker_unit_price_jpy") as [z Hz].
    destruct (Hmul "seller_qty" "seller_unit_price_jpy"
                   "mid_man_unit_price_jpy") as [w Hw].
    cbn [eval] in Hz, Hw. rewrite Hz, Hw. reflexivity.
Qed.

(** C5.  On every row, NULL quantities and prices counting as zero, the
    three variants are defined and the overall profit is the sum of the
    middle-man profit and the seller profit. *)
Theorem overall_is_middle_man_plus_seller (sd : row) :
  exists m s : Z,
    profit "middle_man" sd = Some m /\
    profit "seller" sd = Some s /\
    profit "overall" sd = Some (m + s).
Proof.
  destruct sd as [a b c q1 p1 p0 q2 p2 ats].
  unfold profit, expression. cbn.
  destruct q1, p1, p0, q2, p2; cbn; eexists; eexists; repeat split.
Qed.

End ProfitFacts.

(** ** Failures and their order *)

Module PyFacts.
Import Text Sql Table Query Exec Py Spec Sample TextFacts.
Local Open Scope py_scope.

Section WithDivision.

Variable numeric_div : Z -> Z -> Q.

Lemma bind_ret_r {A : Type} (m : M A) (tr : list event) :
  bind m ret tr = m tr.
Proof. unfold bind, ret. destruct (m tr) as [[e|a] tr']; reflexivity. Qed.

(** C3.  When [time_values] does not hold exactly two values the call ends
    with the assertion error, and the trace is as it was: no statement was
    built and none was sent. *)
Theorem wrong_length_fails_before_any_query
    (conn : store) (profit_type time_column : string)
    (time_values group_by : list string) (limit : Z) (tr : list event) :
  List.length time_values <> 2%nat ->
  get_profit_change_by_segment numeric_div conn profit_type time_column
    time_values group_by limit tr =
  (inl (AssertionError "Exactly two time values required"), tr).
Proof.
  intros Hlen. unfold get_profit_change_by_segment, bind, py_assert.
  destruct (Nat.eqb_spec (List.length time_values) 2) as [Heq|_];
    [contradiction | reflexivity].
Qed.

Lemma lookup_unknown (profit_type : string) (tr : list event) :
  profit_type <> "middle_man" -> profit_type <> "seller" ->
  profit_type <> "overall" ->
  lookup profit_expressions profit_type tr = (inl (KeyError profit_type), tr).
Proof.
  intros H1 H2 H3. apply String.eqb_neq in H1, H2, H3.
  unfold profit_expressions, lookup. rewrite H1, H2, H3. reflexivity.
Qed.

(** C6.  With a [profit_type] that is none of the three names the call ends
    with an exception and the trace is as it was: the key error of the
    lookup when [time_values] has two values, the assertion error otherwise.
    No expression stands in for the missing one and no statement is built. *)
Theorem unknown_profit_type_fails_before_any_query
    (conn : store) (profit_type time_column : string)
    (time_values group_by : list string) (limit : Z) (tr : list event) :
  profit_type <> "middle_man" -> profit_type <> "seller" ->
  profit_type <> "overall" ->
  get_profit_change_by_segment numeric_div conn profit_type time_column
    time_values group_by limit tr =
  (inl (if Nat.eqb (List.length time_values) 2
        then KeyError profit_type
        else AssertionError "Exactly two time values required"), tr).
Proof.
  intros H1 H2 H3.
  unfold get_profit_change_by_segment, bind, py_assert.
  destruct (Nat.eqb_spec (List.length time_values) 2) as [Heq|_];
    [|reflexivity].
  destruct time_values as [|t1 [|t2 [|t3 rest]]]; try discriminate Heq.
  cbn [ret unpack2].
  rewrite (lookup_unknown profit_type tr H1 H2 H3). reflexivity.
Qed.

Lemma infer_time_column_spec (tv : string) :
  (occurs "Q" tv -> infer_time_column tv = "yq") /\
  (~ occurs "Q" tv -> occurs "H" tv -> infer_time_column tv = "yh") /\
  (~ occurs "Q" tv -> ~ occurs "H" tv -> infer_time_column tv = "ym").
Proof.
  unfold infer_time_column, occurs.
  pose proof (contains_char "Q" tv) as HQ.
  pose proof (contains_char "H" tv) as HH.
  destruct (contains "Q" tv); destruct (contains "H" tv);
    repeat split; intros; try reflexivity;
    intuition discriminate.
Qed.

(** C9.  The tool runs [fetch_data] with a granularity read off the first
    time value alone: ["yq"] when it has a [Q], else ["yh"] when it has an
    [H], else ["ym"].  The [time_column] it was called with plays no part:
    any two values of it give the same run. *)
Theorem time_column_is_inferred_from_first_value
    (db : store) (profit_type time_column time_column' : string)
    (tv0 : string) (rest group_by : list string) (limit : Z)
    (tr : list event) :
  get_profit_change numeric_div db profit_type time_column
    (tv0 :: rest) group_by limit tr =
  get_profit_change numeric_div db profit_type time_column'
    (tv0 :: rest) group_by limit tr /\
  exists inferred : string,
    get_profit_change numeric_div db profit_type time_column
      (tv0 :: rest) group_by limit tr =
    fetch_data numeric_div db profit_type inferred
      (tv0 :: rest) group_by limit tr /\
    (occurs "Q" tv0 -> inferred = "yq") /\
    (~ occurs "Q" tv0 -> occurs "H" tv0 -> inferred = "yh") /\
    (~ occurs "Q" tv0 -> ~ occurs "H" tv0 -> inferred = "ym").
Proof.
  split; [reflexivity|].
  exists (infer_time_column tv0). split.
  - unfold get_profit_change. cbn [getitem nth_error].
    unfold bind at 1. cbn [ret]. apply bind_ret_r.
  - apply infer_time_column_spec.
Qed.

(** C10.  With no time value at all the tool ends with the index error of
    [time_values[0]] and an untouched trace: no pool was created and the
    length check, which would have raised the assertion error, was never
    reached. *)
Theorem empty_time_values_is_an_index_error
    (db : store) (profit_type time_column : string)
    (group_by : list string) (limit : Z) (tr : list event) :
  get_profit_change numeric_div db profit_type time_column
    [] group_by limit tr = (inl IndexError, tr) /\
  get_profit_change_by_segment numeric_div db profit_type time_column
    [] group_by limit tr =
  (inl (AssertionError "Exactly two time values required"), tr).
Proof. split; reflexivity. Qed.

End WithDivision.

(** The call of C3 with the single value ["2022"]. *)
Lemma wrong_length_witness :
  List.length ["2022"] <> 2%nat /\
  get_profit_change_by_segment server_div shop "middle_man" "ym"
    ["2022"] default_group_by default_limit [] =
  (inl (AssertionError "Exactly two time values required"), []).
Proof.
  split; [cbn; lia|].
  apply (wrong_length_fails_before_any_query server_div). cbn. lia.
Defined.

(** The call of C6 with the profit type ["gross"]. *)
Lemma unknown_profit_type_witness :
  "gross" <> "middle_man" /\ "gross" <> "seller" /\ "gross" <> "overall" /\
  get_profit_change_by_segment server_div shop "gross" "ym"
    ["2022"; "2023"] default_group_by default_limit [] =
  (inl (KeyError "gross"), []).
Proof.
  split; [discriminate|]. split; [discriminate|]. split; [discriminate|].
  apply (unknown_profit_type_fails_before_any_query server_div shop "gross" "ym"
           ["2022"; "2023"] default_group_by default_limit []);
    discriminate.
Defined.

End PyFacts.

(** ** Sums, groups and the order of the result *)

Module ExecFacts.
Import Sql Table Query Exec Spec.

(** [SUM] over a non-empty list of non-NULL values is their plain sum. *)
Lemma sum_of_values {A : Type} (g : A -> sql_num) (f : A -> Z) (l : list A) :
  (forall x, In x l -> g x = Some (f x)) -> l <> [] ->
  sum (map g l) = Some (total (map f l)).
Proof.
  induction l as [|x l IH]; intros Hg Hne; [contradiction|].
  cbn [map sum total fold_right]. rewrite (Hg x (or_introl eq_refl)).
  destruct l as [|y l'].
  - cbn. f_equal. lia.
  - fold (total (map f (y :: l'))).
    rewrite IH; [reflexivity | | discriminate].
    intros z Hz. apply Hg. right. exact Hz.
Qed.

(** Adding 0 for the rows left out is summing over the rows kept. *)
Lemma total_restricted {A : Type} (keep : A -> bool) (f : A -> Z) (l : list A) :
  total (map (fun x => if keep x then f x else 0) l) =
  total (map f (filter keep l)).
Proof.
  induction l as [|x l IH]; [reflexivity|].
  cbn [map filter total fold_right]. fold (total (map f (filter keep l))).
  destruct (keep x); cbn [map total fold_right];
    unfold total in *; rewrite IH; reflexivity.
Qed.

Lemma value_eqb_refl (v : value) : value_eqb v v = true.
Proof.
  destruct v; cbn; [reflexivity | apply String.eqb_refl | apply Z.eqb_refl].
Qed.

Lemma key_eqb_refl (k : list value) : key_eqb k k = true.
Proof.
  induction k as [|v k IH]; [reflexivity|].
  cbn. rewrite value_eqb_refl. exact IH.
Qed.

Lemma distinct_incl (ks : list (list value)) (k : list value) :
  In k (distinct ks) -> In k ks.
Proof.
  induction ks as [|k0 ks IH]; cbn; [tauto|].
  intros [H|H]; [left; exact H|].
  right. apply IH. apply filter_In in H. apply H.
Qed.

(** A key met in the table has at least one row. *)
Lemma group_rows_nonempty (cols : list string) (rows : list row)
    (k : list value) :
  In k (map (group_key cols) rows) -> group_rows cols k rows <> [].
Proof.
  intros Hk. apply in_map_iff in Hk as [r [Hr Hin]].
  assert (Hg : In r (group_rows cols k rows)).
  { unfold group_rows. apply filter_In. split; [exact Hin|].
    rewrite Hr. apply key_eqb_refl. }
  intros Hnil. rewrite Hnil in Hg. exact Hg.
Qed.

(** *** The sort *)

Section Order.

Context {A : Type}.
Variable f : A -> sql_num.

Lemma before_total (x y : sql_num) : before x y = false -> before y x = true.
Proof.
  unfold before. destruct x as [x|], y as [y|]; cbn; try discriminate; auto.
  intros H. apply Z.leb_gt in H. apply Z.leb_le. lia.
Qed.

Lemma insert_in (x y : A) (l : list A) :
  In y (insert f x l) <-> y = x \/ In y l.
Proof.
  induction l as [|z l IH]; cbn.
  - intuition.
  - destruct (before (f z) (f x)); cbn; rewrite ?IH; intuition.
Qed.

Lemma insert_length (x : A) (l : list A) :
  List.length (insert f x l) = S (List.length l).
Proof.
  induction l as [|z l IH]; cbn; [reflexivity|].
  destruct (before (f z) (f x)); cbn; [rewrite IH|]; reflexivity.
Qed.

Lemma insert_hd (a x : A) (l : list A) :
  HdRel (precedes f) a l -> (precedes f) a x -> HdRel (precedes f) a (insert f x l).
Proof.
  intros Hl Hx. destruct l as [|z l]; cbn.
  - constructor. exact Hx.
  - destruct (before (f z) (f x)); constructor.
    + inversion Hl; assumption.
    + exact Hx.
Qed.

Lemma insert_sorted (x : A) (l : list A) :
  Sorted (precedes f) l -> Sorted (precedes f) (insert f x l).
Proof.
  induction l as [|z l IH]; intros Hs; cbn.
  - repeat constructor.
  - destruct (before (f z) (f x)) eqn:Hzx.
    + inversion Hs as [|? ? Hl Hhd]; subst. constructor.
      * apply IH. exact Hl.
      * apply insert_hd; assumption.
    + constructor; [exact Hs|]. constructor.
      apply before_total. exact Hzx.
Qed.

Lemma fold_insert_in (l acc : list A) (y : A) :
  In y (fold_left (fun acc x => insert f x acc) l acc) <-> In y l \/ In y acc.
Proof.
  revert acc. induction l as [|x l IH]; intros acc; cbn.
  - intuition.
  - rewrite IH, insert_in. intuition.
Qed.

Lemma fold_insert_sorted (l acc : list A) :
  Sorted (precedes f) acc ->
  Sorted (precedes f) (fold_left (fun acc x => insert f x acc) l acc).
Proof.
  revert acc. induction l as [|x l IH]; intros acc Hs; cbn; [exact Hs|].
  apply IH. apply insert_sorted. exact Hs.
Qed.

Lemma fold_insert_length (l acc : list A) :
  List.length (fold_left (fun acc x => insert f x acc) l acc) =
  (List.length l + List.length acc)%nat.
Proof.
  revert acc. induction l as [|x l IH]; intros acc; cbn; [reflexivity|].
  rewrite IH, insert_length. lia.
Qed.

(** [ORDER BY] keeps the rows and puts them in order. *)
Lemma order_by_in (l : list A) (y : A) : In y (order_by f l) <-> In y l.
Proof. unfold order_by. rewrite fold_insert_in. cbn. intuition. Qed.

Lemma order_by_sorted (l : list A) : Sorted (precedes f) (order_by f l).
Proof. apply fold_insert_sorted. constructor. Qed.

Lemma order_by_length (l : list A) :
  List.length (order_by f l) = List.length l.
Proof. unfold order_by. rewrite fold_insert_length. cbn. lia. Qed.

(** [LIMIT] keeps the order. *)
Lemma firstn_sorted (n : nat) (l : list A) :
  Sorted (precedes f) l -> Sorted (precedes f) (firstn n l).
Proof.
  revert l. induction n as [|n IH]; intros l Hs; [constructor|].
  destruct l as [|x l]; [constructor|]. cbn.
  inversion Hs as [|? ? Hl Hhd]; subst. constructor.
  - apply IH. exact Hl.
  - destruct l as [|y l]; [destruct n; constructor|].
    destruct n; cbn; constructor. inversion Hhd; assumption.
Qed.

(** In a sorted list each row may stand before its successor. *)
Lemma sorted_adjacent (l : list A) :
  Sorted (precedes f) l ->
  forall (i : nat) (a b : A),
    nth_error l i = Some a -> nth_error l (S i) = Some b -> (precedes f) a b.
Proof.
  induction 1 as [|x l Hl IH Hhd]; intros i a b Ha Hb.
  - destruct i; discriminate.
  - destruct i as [|i].
    + cbn in Ha, Hb. injection Ha as <-.
      destruct l as [|y l]; [discriminate|]. cbn in Hb. injection Hb as <-.
      inversion Hhd; assumption.
    + cbn in Ha. apply (IH i a b Ha). exact Hb.
Qed.

End Order.

(** *** The select list never raises *)

Section WithDivision.

Variable numeric_div : Z -> Z -> Q.

(** The division of the last [CASE] is never reached with a divisor 0: the
    WHEN branch takes the total 0, and the absolute value of any other
    total is not 0. *)
Lemma percent_never_raises (pc total : sql_num) :
  percent numeric_div pc total = Some (percent_value numeric_div pc total).
Proof.
  unfold percent_value, percent.
  destruct total as [t|]; cbn [num_eq is_true num_abs option_map].
  - destruct (Z.eqb_spec t 0) as [Ht|Ht]; [reflexivity|].
    destruct pc as [p|]; [|reflexivity].
    destruct (Z.eqb_spec (Z.abs t) 0) as [Ha|Ha]; [lia | reflexivity].
  - destruct pc; reflexivity.
Qed.

Lemma percent_value_of (pc tot : Z) :
  percent_value numeric_div (Some pc) (Some tot) =
  Some (if tot =? 0 then 0%Q
        else numeric_round (numeric_div pc (Z.abs tot) * 100) 2).
Proof.
  unfold percent_value, percent. cbn [num_eq is_true num_abs option_map].
  destruct (Z.eqb_spec tot 0) as [Ht|Ht]; [reflexivity|].
  destruct (Z.eqb_spec (Z.abs tot) 0) as [Ha|Ha]; [lia | reflexivity].
Qed.

Lemma project_record_of (f : final_row) :
  project numeric_div f = Some (record_of numeric_div f).
Proof. unfold project, record_of. rewrite percent_never_raises. reflexivity. Qed.

Lemma all_or_none_map {A B : Type} (f : A -> option B) (g : A -> B)
    (l : list A) :
  (forall x, f x = Some (g x)) -> all_or_none f l = Some (map g l).
Proof.
  intros H. induction l as [|x l IH]; [reflexivity|].
  cbn [all_or_none map]. rewrite H, IH. reflexivity.
Qed.

(** A statement that is accepted returns its records: nothing raises while
    it runs. *)
Lemma run_value (db : store) (st : statement) (ps : params) :
  run numeric_div db st ps =
  if accepted db st then
    Some (firstn (Z.to_nat (limit st))
            (order_by profit_change
               (map (record_of numeric_div)
                  (final (calc st ps (sales_data db))))))
  else None.
Proof.
  unfold run. rewrite (all_or_none_map _ _ _ project_record_of). reflexivity.
Qed.

End WithDivision.

(** *** The quotient of the server *)

(** Rounding gives the nearest whole number. *)
Lemma round_half_away_nearest (n : Z) (d : positive) :
  2 * Z.abs (round_half_away (n # d) * Zpos d - n) <= Zpos d.
Proof.
  unfold round_half_away. cbn [Qnum Qden].
  assert (Hd : 0 < 2 * Zpos d) by lia.
  pose proof (Z.div_mod (2 * Z.abs n + Zpos d) (2 * Zpos d)
                ltac:(lia)) as Hdm.
  pose proof (Z.mod_pos_bound (2 * Z.abs n + Zpos d) (2 * Zpos d) Hd) as Hb.
  set (q := (2 * Z.abs n + Zpos d) / (2 * Zpos d)) in *.
  set (m := (2 * Z.abs n + Zpos d) mod (2 * Zpos d)) in *.
  destruct n as [|p|p]; cbn [Z.sgn Z.abs] in *; nia.
Qed.

(** With enough fuel [leading] gives the weight [w] and the first digit
    [d] of its number in base 10000. *)
Lemma leading_spec (fuel : nat) (n : Z) :
  0 <= n < 10000 ^ (Z.of_nat fuel + 1) ->
  0 <= fst (leading fuel n) /\
  0 <= snd (leading fuel n) < 10000 /\
  snd (leading fuel n) * 10000 ^ fst (leading fuel n) <= n <
  (snd (leading fuel n) + 1) * 10000 ^ fst (leading fuel n).
Proof.
  revert n. induction fuel as [|fuel IH]; intros n Hn.
  - cbn [leading fst snd]. change (10000 ^ (Z.of_nat 0 + 1)) with 10000 in Hn.
    change (10000 ^ 0) with 1. lia.
  - cbn [leading]. destruct (Z.ltb_spec n 10000) as [Hlt|Hge].
    + cbn [fst snd]. change (10000 ^ 0) with 1. lia.
    + assert (Hdiv : 0 <= n / 10000 < 10000 ^ (Z.of_nat fuel + 1)).
      { split; [apply Z.div_pos; lia|].
        apply Z.div_lt_upper_bound; [lia|].
        replace (Z.of_nat (S fuel) + 1) with (Z.succ (Z.of_nat fuel + 1))
          in Hn by lia.
        rewrite Z.pow_succ_r in Hn by lia. lia. }
      specialize (IH (n / 10000) Hdiv).
      destruct (leading fuel (n / 10000)) as [w d]. cbn [fst snd] in *.
      destruct IH as (Hw & Hd & Hlo & Hhi).
      replace (w + 1) with (Z.succ w) by lia.
      rewrite Z.pow_succ_r by exact Hw.
      pose proof (Z.div_mod n 10000 ltac:(lia)) as Hdm.
      pose proof (Z.mod_pos_bound n 10000 ltac:(lia)) as Hm.
      assert (0 < 10000 ^ w) by (apply Z.pow_pos_nonneg; lia).
      split; [lia|]. split; [lia|]. nia.
Qed.

(** The fuel of [weight_and_first_digit] is enough. *)
Lemma weight_and_first_digit_spec (n : Z) :
  0 <= fst (weight_and_first_digit n) /\
  0 <= snd (weight_and_first_digit n) < 10000 /\
  snd (weight_and_first_digit n) * 10000 ^ fst (weight_and_first_digit n)
    <= Z.abs n <
  (snd (weight_and_first_digit n) + 1) *
    10000 ^ fst (weight_and_first_digit n).
Proof.
  unfold weight_and_first_digit. apply leading_spec.
  split; [lia|].
  destruct (Z.eq_dec (Z.abs n) 0) as [H0|Hn0].
  - rewrite H0. cbn. lia.
  - pose proof (Z.log2_spec (Z.abs n) ltac:(lia)) as [_ Hup].
    rewrite Z2Nat.id by apply Z.log2_nonneg.
    eapply Z.lt_le_trans; [exact Hup|].
    rewrite <- Z.add_1_r.
    apply Z.pow_le_mono_l. pose proof (Z.log2_nonneg (Z.abs n)). lia.
Qed.

Lemma div_scale_range (a b : Z) : 0 <= div_scale a b <= 1000.
Proof.
  unfold div_scale.
  destruct (weight_and_first_digit a) as [w1 d1].
  destruct (weight_and_first_digit b) as [w2 d2]. lia.
Qed.

(** The quotient of the server is the multiple of [10^-s] nearest to the
    exact quotient, [s] being the scale it selects. *)
Lemma server_div_nearest (a b : Z) :
  0 < b ->
  exists k : Z,
    server_div a b = k # Z.to_pos (10 ^ div_scale a b) /\
    2 * Z.abs (k * b - a * 10 ^ div_scale a b) <= b.
Proof.
  intros Hb. unfold server_div.
  exists (round_half_away ((a * 10 ^ div_scale a b) # Z.to_pos b)).
  split; [reflexivity|].
  pose proof (round_half_away_nearest (a * 10 ^ div_scale a b) (Z.to_pos b))
    as H.
  rewrite Z2Pos.id in H by exact Hb. exact H.
Qed.

End ExecFacts.

(** ** The records of a successful call *)

Module ResultFacts.
Import Sql Table Query Exec Py Spec Sample ProfitFacts ExecFacts.
Local Open Scope py_scope.

Lemma firstn_incl {A : Type} (n : nat) (l : list A) (x : A) :
  In x (firstn n l) -> In x l.
Proof.
  intros H. rewrite <- (firstn_skipn n l). apply in_or_app. left. exact H.
Qed.

Lemma case_profit_value (e : expr) (tc t : option string) (sd : row) :
  never_null e ->
  case_profit e tc t sd =
  Some (if row_matches tc t sd then amount e sd else 0).
Proof.
  intros He. unfold case_profit.
  destruct (row_matches tc t sd); [apply He | reflexivity].
Qed.

Lemma group_sum (e : expr) (tc t : option string) (g : list row) :
  never_null e -> g <> [] ->
  sum (map (case_profit e tc t) g) = Some (matched_profit e tc t g).
Proof.
  intros He Hg. unfold matched_profit. rewrite <- total_restricted.
  apply (sum_of_values (case_profit e tc t)
           (fun sd => if row_matches tc t sd then amount e sd else 0)).
  - intros sd _. apply case_profit_value. exact He.
  - exact Hg.
Qed.

Section OneStatement.

Variable st : statement.
Variable ps : params.
Variable rows : list row.
Hypothesis profit_defined : never_null (profit_expr st).

(** Each row of [calc] carries the two sums of its group. *)
Lemma calc_sums (c : calc_row) :
  In c (calc st ps rows) ->
  c_profit_t1_jpy c = Some (sum_t1 st ps rows (c_key c)) /\
  c_profit_t2_jpy c = Some (sum_t2 st ps rows (c_key c)).
Proof.
  unfold calc. intros Hc. apply in_map_iff in Hc as [k [<- Hk]].
  apply distinct_incl in Hk.
  pose proof (group_rows_nonempty _ _ _ Hk) as Hne.
  cbn [c_key c_profit_t1_jpy c_profit_t2_jpy]. unfold sum_t1, sum_t2.
  split; apply group_sum; assumption.
Qed.

Lemma calc_change (c : calc_row) :
  In c (calc st ps rows) ->
  change c = Some (sum_t2 st ps rows (c_key c) - sum_t1 st ps rows (c_key c)).
Proof.
  intros Hc. destruct (calc_sums c Hc) as [H1 H2].
  unfold change. rewrite H1, H2. reflexivity.
Qed.

Lemma calc_total :
  calc st ps rows <> [] ->
  sum (map change (calc st ps rows)) =
    Some (total_profit_change st ps rows).
Proof.
  intros Hne. unfold total_profit_change.
  apply (sum_of_values change); [|exact Hne].
  intros c Hc. apply calc_change. exact Hc.
Qed.

Section WithDivision.

Variable numeric_div : Z -> Z -> Q.

(** A record of the full result, before [ORDER BY] and [LIMIT], comes from a
    row of [calc]. *)
Lemma projected_record (r : record) :
  In r (map (record_of numeric_div) (final (calc st ps rows))) ->
  sum (map change (calc st ps rows)) =
    Some (total_profit_change st ps rows) /\
  profit_t1_jpy r = Some (sum_t1 st ps rows (key r)) /\
  profit_t2_jpy r = Some (sum_t2 st ps rows (key r)) /\
  profit_change r = Some (sum_t2 st ps rows (key r) - sum_t1 st ps rows (key r)) /\
  percent_profit_change r =
    percent_value numeric_div
      (Some (sum_t2 st ps rows (key r) - sum_t1 st ps rows (key r)))
      (Some (total_profit_change st ps rows)).
Proof.
  intros Hr. apply in_map_iff in Hr as [fr [<- Hfr]].
  unfold final in Hfr. apply in_map_iff in Hfr as [c [<- Hc]].
  assert (Hne : calc st ps rows <> []).
  { intros Hnil. rewrite Hnil in Hc. exact Hc. }
  destruct (calc_sums c Hc) as [H1 H2].
  unfold record_of. cbn [key profit_t1_jpy profit_t2_jpy profit_change
                       percent_profit_change f_key f_profit_t1_jpy
                       f_profit_t2_jpy f_profit_change f_total_profit_change].
  rewrite (calc_change c Hc), (calc_total Hne). auto 6.
Qed.

(** The same for the records the statement returns. *)
Lemma run_record (db : store) (out : list record) (r : record) :
  sales_data db = rows ->
  run numeric_div db st ps = Some out -> In r out ->
  sum (map change (calc st ps rows)) =
    Some (total_profit_change st ps rows) /\
  profit_t1_jpy r = Some (sum_t1 st ps rows (key r)) /\
  profit_t2_jpy r = Some (sum_t2 st ps rows (key r)) /\
  profit_change r = Some (sum_t2 st ps rows (key r) - sum_t1 st ps rows (key r)) /\
  percent_profit_change r =
    percent_value numeric_div
      (Some (sum_t2 st ps rows (key r) - sum_t1 st ps rows (key r)))
      (Some (total_profit_change st ps rows)).
Proof.
  intros Hrows Hrun Hr. rewrite run_value in Hrun.
  destruct (accepted db st); [|discriminate].
  injection Hrun as <-. apply firstn_incl in Hr.
  apply order_by_in in Hr. rewrite Hrows in Hr.
  apply projected_record in Hr. exact Hr.
Qed.

(** The statement returns at most [limit] records, in the order of the
    sort key. *)
Lemma run_ranked (db : store) (out : list record) :
  run numeric_div db st ps = Some out ->
  (Z.of_nat (List.length out) <= limit st) /\
  Sorted (precedes profit_change) out.
Proof.
  rewrite run_value. destruct (accepted db st) eqn:Hacc; [|discriminate].
  intros Hrun. injection Hrun as <-. split.
  - unfold accepted in Hacc.
    apply andb_true_iff in Hacc as [Hacc _].
    apply andb_true_iff in Hacc as [_ Hpos]. apply Z.leb_le in Hpos.
    pose proof (firstn_le_length (Z.to_nat (limit st))
                  (order_by profit_change
                     (map (record_of numeric_div)
                        (final (calc st ps (sales_data db)))))) as Hlen.
    lia.
  - apply firstn_sorted. apply order_by_sorted.
Qed.

End WithDivision.

End OneStatement.

Section WithDivision.

Variable numeric_div : Z -> Z -> Q.

Lemma lookup_found {V : Type} (d : list (string * V)) (k : string)
    (tr tr' : list event) (v : V) :
  lookup d k tr = (inr v, tr') -> In (k, v) d /\ tr' = tr.
Proof.
  induction d as [|[k' v'] d IH]; cbn; [discriminate|].
  destruct (String.eqb_spec k k') as [->|Hne].
  - unfold ret. intros H. injection H as <- <-. auto.
  - intros H. destruct (IH H) as [Hin ->]. auto.
Qed.

(** A call that returns records got two time values, found its expression
    in the dict and ran the statement built from them. *)
Lemma segment_success
    (conn : store) (profit_type time_column : string)
    (time_values group_by : list string) (limit : Z)
    (tr tr' : list event) (out : list record) :
  get_profit_change_by_segment numeric_div conn profit_type time_column
    time_values group_by limit tr = (inr out, tr') ->
  exists (t1 t2 : string) (e : expr),
    time_values = [t1; t2] /\
    In (profit_type, e) profit_expressions /\
    run numeric_div conn (mk_statement group_by e group_by limit)
        (mk_params (Some t1) (Some t2) (Some time_column)) = Some out.
Proof.
  unfold get_profit_change_by_segment, bind at 1, py_assert.
  destruct (Nat.eqb_spec (List.length time_values) 2) as [Hlen|_];
    [|discriminate].
  destruct time_values as [|t1 [|t2 [|t3 rest]]]; try discriminate Hlen.
  cbn [ret]. unfold bind at 1. cbn [unpack2 ret]. unfold bind at 1.
  destruct (lookup profit_expressions profit_type tr) as [[ex|e] tr1] eqn:Hl;
    [discriminate|].
  apply lookup_found in Hl as [Hin ->].
  unfold bind at 1, emit. unfold fetch, bind, emit.
  destruct (run numeric_div conn (mk_statement group_by e group_by limit)
              (mk_params (Some t1) (Some t2) (Some time_column)))
    as [rows|] eqn:Hrun; [|discriminate].
  unfold ret. intros H. injection H as <- _.
  exists t1, t2, e. auto.
Qed.

Lemma lookup_known (profit_type : string) (e : expr) (tr : list event) :
  In (profit_type, e) profit_expressions ->
  lookup profit_expressions profit_type tr = (inr e, tr).
Proof.
  intros [H|[H|[H|[]]]]; inversion H; subst; reflexivity.
Qed.

(** A call with two time values, a profit type of the dict and a statement
    that is accepted returns the records of the statement, after building
    it and sending it once. *)
Lemma segment_runs
    (conn : store) (profit_type time_column t1 t2 : string)
    (group_by : list string) (limit : Z) (tr : list event) (e : expr) :
  In (profit_type, e) profit_expressions ->
  accepted conn (mk_statement group_by e group_by limit) = true ->
  get_profit_change_by_segment numeric_div conn profit_type time_column
    [t1; t2] group_by limit tr =
  (inr (firstn (Z.to_nat limit)
          (order_by profit_change
             (map (record_of numeric_div)
                (final (calc (mk_statement group_by e group_by limit)
                          (mk_params (Some t1) (Some t2) (Some time_column))
                          (sales_data conn)))))),
   (tr ++ [QueryBuilt (mk_statement group_by e group_by limit);
           Fetched (mk_statement group_by e group_by limit)
             (mk_params (Some t1) (Some t2) (Some time_column))])%list).
Proof.
  intros He Hacc.
  unfold get_profit_change_by_segment, bind, py_assert.
  cbn [List.length Nat.eqb ret unpack2].
  rewrite (lookup_known profit_type e tr He).
  unfold emit, fetch, bind, emit. rewrite run_value, Hacc.
  cbn [Query.limit]. unfold ret. rewrite <- app_assoc. reflexivity.
Qed.

(** C8.  In every record returned, [profit_t1_jpy] and [profit_t2_jpy] are
    the profit summed over the rows of the record's group that count for
    the first and for the second time value, and [profit_change] is the
    second minus the first. *)
Theorem profit_change_is_t2_minus_t1
    (conn : store) (profit_type time_column : string)
    (time_values group_by : list string) (limit : Z)
    (tr tr' : list event) (out : list record) (r : record) :
  get_profit_change_by_segment numeric_div conn profit_type time_column
    time_values group_by limit tr = (inr out, tr') ->
  In r out ->
  exists (t1 t2 : string) (e : expr) (p1 p2 : Z),
    time_values = [t1; t2] /\
    In (profit_type, e) profit_expressions /\
    p1 = matched_profit e (Some time_column) (Some t1)
           (group_rows group_by (key r) (sales_data conn)) /\
    p2 = matched_profit e (Some time_column) (Some t2)
           (group_rows group_by (key r) (sales_data conn)) /\
    profit_t1_jpy r = Some p1 /\
    profit_t2_jpy r = Some p2 /\
    profit_change r = Some (p2 - p1).
Proof.
  intros Hcall Hr.
  destruct (segment_success _ _ _ _ _ _ _ _ _ Hcall)
    as (t1 & t2 & e & -> & He & Hrun).
  assert (Hnn : never_null e).
  { intros sd. apply (profit_expressions_total profit_type). exact He. }
  destruct (run_record (mk_statement group_by e group_by limit)
              (mk_params (Some t1) (Some t2) (Some time_column))
              (sales_data conn) Hnn numeric_div conn out r
              eq_refl Hrun Hr) as (_ & H1 & H2 & H3 & _).
  exists t1, t2, e. eexists. eexists.
  repeat split; [exact He | exact H1 | exact H2 | exact H3].
Qed.

(** C4.  The records returned are at most [limit], and of any two that
    follow each other the first has the greater or equal absolute
    [profit_change]. *)
Theorem result_is_ranked_and_limited
    (conn : store) (profit_type time_column : string)
    (time_values group_by : list string) (limit : Z)
    (tr tr' : list event) (out : list record) :
  get_profit_change_by_segment numeric_div conn profit_type time_column
    time_values group_by limit tr = (inr out, tr') ->
  Z.of_nat (List.length out) <= limit /\
  forall (i : nat) (a b : record),
    nth_error out i = Some a -> nth_error out (S i) = Some b ->
    exists x y : Z,
      profit_change a = Some x /\ profit_change b = Some y /\
      Z.abs y <= Z.abs x.
Proof.
  intros Hcall.
  destruct (segment_success _ _ _ _ _ _ _ _ _ Hcall)
    as (t1 & t2 & e & -> & He & Hrun).
  assert (Hnn : never_null e).
  { intros sd. apply (profit_expressions_total profit_type). exact He. }
  destruct (run_ranked (mk_statement group_by e group_by limit)
              (mk_params (Some t1) (Some t2) (Some time_column))
              numeric_div conn out Hrun) as [Hlen Hsorted].
  split; [exact Hlen|].
  intros i a b Ha Hb.
  pose proof (sorted_adjacent profit_change out Hsorted i a b Ha Hb) as Hab.
  apply nth_error_In in Ha, Hb.
  destruct (run_record (mk_statement group_by e group_by limit)
              (mk_params (Some t1) (Some t2) (Some time_column))
              (sales_data conn) Hnn numeric_div conn out a
              eq_refl Hrun Ha) as (_ & _ & _ & Hpa & _).
  destruct (run_record (mk_statement group_by e group_by limit)
              (mk_params (Some t1) (Some t2) (Some time_column))
              (sales_data conn) Hnn numeric_div conn out b
              eq_refl Hrun Hb) as (_ & _ & _ & Hpb & _).
  unfold precedes in Hab. rewrite Hpa, Hpb in Hab.
  unfold before in Hab. cbn in Hab. apply Z.leb_le in Hab.
  eexists. eexists. split; [exact Hpa|]. split; [exact Hpb|]. exact Hab.
Qed.

End WithDivision.

(** C2 (amended).  A call with two time values, a profit type of the dict
    and a statement that is accepted does not fail, whatever the changes
    add up to.  In every record it returns, [percent_profit_change] is 0
    when the changes of all groups of the call add up to 0, and otherwise
    the quotient of the record's change by the absolute value of that
    total, times 100, rounded to two decimals; the quotient is the one of
    the server, the multiple of [10^-s] nearest to the exact quotient, [s]
    being the scale the server selects.  The total runs over every group,
    also over those that [LIMIT] cuts off. *)
Theorem percent_is_rounded_share_of_total_change
    (conn : store) (profit_type time_column t1 t2 : string)
    (group_by : list string) (limit : Z) (tr : list event) (e : expr) :
  In (profit_type, e) profit_expressions ->
  accepted conn (mk_statement group_by e group_by limit) = true ->
  exists out : list record,
    get_profit_change_by_segment server_div conn profit_type time_column
      [t1; t2] group_by limit tr =
    (inr out,
     (tr ++ [QueryBuilt (mk_statement group_by e group_by limit);
             Fetched (mk_statement group_by e group_by limit)
               (mk_params (Some t1) (Some t2) (Some time_column))])%list) /\
    forall r : record,
      In r out ->
      exists pc tot : Z,
        profit_change r = Some pc /\
        sum (map change
               (calc (mk_statement group_by e group_by limit)
                     (mk_params (Some t1) (Some t2) (Some time_column))
                     (sales_data conn))) = Some tot /\
        (tot = 0 -> percent_profit_change r = Some 0%Q) /\
        (tot <> 0 ->
         percent_profit_change r =
           Some (numeric_round (server_div pc (Z.abs tot) * 100) 2) /\
         exists k : Z,
           server_div pc (Z.abs tot) =
             k # Z.to_pos (10 ^ div_scale pc (Z.abs tot)) /\
           2 * Z.abs (k * Z.abs tot - pc * 10 ^ div_scale pc (Z.abs tot))
             <= Z.abs tot).
Proof.
  intros He Hacc.
  rewrite (segment_runs server_div conn profit_type time_column t1 t2
             group_by limit tr e He Hacc).
  eexists. split; [reflexivity|].
  intros r Hr. apply firstn_incl in Hr. apply order_by_in in Hr.
  assert (Hnn : never_null e).
  { intros sd. apply (profit_expressions_total profit_type). exact He. }
  destruct (projected_record (mk_statement group_by e group_by limit)
              (mk_params (Some t1) (Some t2) (Some time_column))
              (sales_data conn) Hnn server_div r Hr)
    as (Htot & _ & _ & Hpc & Hpct).
  eexists. eexists. split; [exact Hpc|]. split; [exact Htot|].
  rewrite Hpct, percent_value_of. split; intros Hz.
  - rewrite Hz. reflexivity.
  - apply Z.eqb_neq in Hz. rewrite Hz. split; [reflexivity|].
    apply server_div_nearest. apply Z.eqb_neq in Hz. lia.
Qed.

(** C2 on [balanced], where the changes of the two units cancel. *)
Lemma percent_witness :
  In ("middle_man", middle_man_expr) profit_expressions /\
  accepted balanced (mk_statement ["bu"] middle_man_expr ["bu"] 10) = true /\
  exists out : list record,
    get_profit_change_by_segment server_div balanced "middle_man" "ym"
      ["2022"; "2023"] ["bu"] 10 [] =
    (inr out,
     ([] ++ [QueryBuilt (mk_statement ["bu"] middle_man_expr ["bu"] 10);
             Fetched (mk_statement ["bu"] middle_man_expr ["bu"] 10)
               (mk_params (Some "2022") (Some "2023") (Some "ym"))])%list) /\
    forall r : record,
      In r out ->
      exists pc tot : Z,
        profit_change r = Some pc /\
        sum (map change
               (calc (mk_statement ["bu"] middle_man_expr ["bu"] 10)
                     (mk_params (Some "2022") (Some "2023") (Some "ym"))
                     (sales_data balanced))) = Some tot /\
        (tot = 0 -> percent_profit_change r = Some 0%Q) /\
        (tot <> 0 ->
         percent_profit_change r =
           Some (numeric_round (server_div pc (Z.abs tot) * 100) 2) /\
         exists k : Z,
           server_div pc (Z.abs tot) =
             k # Z.to_pos (10 ^ div_scale pc (Z.abs tot)) /\
           2 * Z.abs (k * Z.abs tot - pc * 10 ^ div_scale pc (Z.abs tot))
             <= Z.abs tot).
Proof.
  split; [cbn; auto|]. split; [reflexivity|].
  apply (percent_is_rounded_share_of_total_change balanced "middle_man" "ym"
           "2022" "2023" ["bu"] 10 [] middle_man_expr);
    [cbn; auto | reflexivity].
Defined.

(** C2 as it was stated fails on [ledger]: the change of unit A is 10^16
    and the changes add up to 8 * 10^18 + 1.  The server rounds the
    quotient to 20 decimals, 0.00125 exactly, and returns 0.13; the exact
    quotient lies below 0.00125 and the percent of the specification is
    0.12. *)
Lemma exact_share_counterexample :
  get_profit_change_by_segment server_div ledger "middle_man" "ym"
    ["2022"; "2023"] ["bu"] 10 [] =
  (inr [mk_record [VText "B"] (Some 0) (Some 7990000000000000001)
          (Some 7990000000000000001) (Some (9988 # 100));
        ledger_A],
   [QueryBuilt (mk_statement ["bu"] middle_man_expr ["bu"] 10);
    Fetched (mk_statement ["bu"] middle_man_expr ["bu"] 10) ledger_params]) /\
  profit_change ledger_A = Some 10000000000000000 /\
  sum (map change
         (calc (mk_statement ["bu"] middle_man_expr ["bu"] 10) ledger_params
               (sales_data ledger))) = Some 8000000000000000001 /\
  percent_profit_change ledger_A = Some (13 # 100) /\
  spec_percent 10000000000000000 8000000000000000001 = 12 # 100 /\
  ~ (13 # 100 == spec_percent 10000000000000000 8000000000000000001)%Q.
Proof.
  split; [vm_compute; reflexivity|].
  split; [reflexivity|].
  split; [vm_compute; reflexivity|].
  split; [reflexivity|].
  split; [vm_compute; reflexivity|].
  vm_compute. discriminate.
Qed.

(** The call on [shop] for 2022 against 2023, by business unit. *)
Lemma shop_call_10 :
  get_profit_change_by_segment server_div shop "middle_man" "ym"
    ["2022"; "2023"] ["bu"] 10 [] =
  (inr [record_B; record_A; record_C], shop_trace 10).
Proof. vm_compute. reflexivity. Qed.

(** C8 on the record of unit B. *)
Lemma profit_change_witness :
  get_profit_change_by_segment server_div shop "middle_man" "ym"
    ["2022"; "2023"] ["bu"] 10 [] =
  (inr [record_B; record_A; record_C], shop_trace 10) /\
  In record_B [record_B; record_A; record_C] /\
  exists (t1 t2 : string) (e : expr) (p1 p2 : Z),
    ["2022"; "2023"] = [t1; t2] /\
    In ("middle_man", e) profit_expressions /\
    p1 = matched_profit e (Some "ym") (Some t1)
           (group_rows ["bu"] (key record_B) (sales_data shop)) /\
    p2 = matched_profit e (Some "ym") (Some t2)
           (group_rows ["bu"] (key record_B) (sales_data shop)) /\
    profit_t1_jpy record_B = Some p1 /\
    profit_t2_jpy record_B = Some p2 /\
    profit_change record_B = Some (p2 - p1).
Proof.
  split; [exact shop_call_10|]. split; [cbn; auto|].
  apply (profit_change_is_t2_minus_t1 server_div shop "middle_man" "ym"
           ["2022"; "2023"] ["bu"] 10 [] (shop_trace 10)
           [record_B; record_A; record_C] record_B);
    [exact shop_call_10 | cbn; auto].
Defined.

(** C4 on the same call. *)
Lemma ranked_witness :
  get_profit_change_by_segment server_div shop "middle_man" "ym"
    ["2022"; "2023"] ["bu"] 10 [] =
  (inr [record_B; record_A; record_C], shop_trace 10) /\
  (Z.of_nat (List.length [record_B; record_A; record_C]) <= 10 /\
   forall (i : nat) (a b : record),
     nth_error [record_B; record_A; record_C] i = Some a ->
     nth_error [record_B; record_A; record_C] (S i) = Some b ->
     exists x y : Z,
       profit_change a = Some x /\ profit_change b = Some y /\
       Z.abs y <= Z.abs x).
Proof.
  split; [exact shop_call_10|].
  apply (result_is_ranked_and_limited server_div shop "middle_man" "ym"
           ["2022"; "2023"] ["bu"] 10 [] (shop_trace 10)
           [record_B; record_A; record_C]).
  exact shop_call_10.
Defined.

(** When the changes cancel, the call returns both units and both shares
    are 0. *)
Example zero_total_gives_zero_percent :
  exists out : list record,
    get_profit_change_by_segment server_div balanced "middle_man" "ym"
      ["2022"; "2023"] ["bu"] 10 [] = (inr out, shop_trace 10) /\
    List.length out = 2%nat /\
    forall r : record, In r out -> percent_profit_change r = Some 0%Q.
Proof.
  eexists. split; [vm_compute; reflexivity|]. split; [reflexivity|].
  intros r [<-|[<-|[]]]; reflexivity.
Qed.

(** With [LIMIT 1] only unit B is returned, and its share is still taken
    of the change of all three units (11), not of its own change. *)
Example limit_does_not_change_the_total :
  get_profit_change_by_segment server_div shop "middle_man" "ym"
    ["2022"; "2023"] ["bu"] 1 [] = (inr [record_B], shop_trace 1).
Proof. vm_compute. reflexivity. Qed.

End ResultFacts.

(** * Further properties of the code *)

(** ** More on which rows count *)

Module MatchMore.
Import Text Sql Table Query Spec Sample TextFacts MatchFacts.

(** A target that holds the delimiter of its granularity is compared by
    equality only, whatever other characters it has: the [LIKE] disjunct is
    switched off by [position(...) = 0]. *)
Theorem delimited_target_counts_only_equal_rows
    (tc t : string) (sd : row) :
  In tc time_columns ->
  contains (delimiter tc) t = true ->
  (row_matches (Some tc) (Some t) sd = true <-> selected tc sd = Some t).
Proof.
  intros Htc Hd. rewrite (row_matches_selected tc t sd Htc).
  destruct (selected tc sd) as [v|]; [|split; discriminate].
  unfold like_matches. rewrite position_zero, Hd. cbn [negb andb].
  rewrite orb_false_r, String.eqb_eq. split; congruence.
Qed.

Lemma delimited_target_witness :
  In "yq" time_columns /\
  contains (delimiter "yq") "2022 Q_" = true /\
  (row_matches (Some "yq") (Some "2022 Q_") may_2022 = true <->
   selected "yq" may_2022 = Some "2022 Q_").
Proof.
  split; [cbn; auto|]. split; [reflexivity|].
  apply (delimited_target_counts_only_equal_rows "yq" "2022 Q_" may_2022);
    [cbn; auto | reflexivity].
Defined.

(** A row whose selected column equals the target counts, whatever
    characters the target has. *)
Theorem equal_value_counts (tc t : string) (sd : row) :
  In tc time_columns ->
  selected tc sd = Some t ->
  row_matches (Some tc) (Some t) sd = true.
Proof.
  intros Htc Hv. rewrite (row_matches_selected tc t sd Htc), Hv.
  unfold like_matches. rewrite String.eqb_refl. reflexivity.
Qed.

Lemma equal_value_witness :
  In "ym" time_columns /\
  selected "ym" may_2022 = Some "2022/05" /\
  row_matches (Some "ym") (Some "2022/05") may_2022 = true.
Proof.
  split; [cbn; auto|]. split; [reflexivity|].
  apply (equal_value_counts "ym" "2022/05" may_2022);
    [cbn; auto | reflexivity].
Defined.

(** A row whose selected column is NULL counts for no target: both the
    comparison and the [LIKE] are unknown, and [CASE] takes its ELSE. *)
Theorem null_time_never_counts (tc t : string) (sd : row) :
  In tc time_columns ->
  selected tc sd = None ->
  row_matches (Some tc) (Some t) sd = false.
Proof.
  intros Htc Hv. rewrite (row_matches_selected tc t sd Htc), Hv. reflexivity.
Qed.

Lemma null_time_witness :
  In "yq" time_columns /\
  selected "yq" (sale "2022/01" "A" 1 100 0) = None /\
  row_matches (Some "yq") (Some "2022") (sale "2022/01" "A" 1 100 0) = false.
Proof.
  split; [cbn; auto|]. split; [reflexivity|].
  apply (null_time_never_counts "yq" "2022" (sale "2022/01" "A" 1 100 0));
    [cbn; auto | reflexivity].
Defined.

(** With a granularity that is none of the three names, no row counts for
    any target. *)
Theorem unknown_granularity_counts_no_row (tc t : string) (sd : row) :
  ~ In tc time_columns ->
  row_matches (Some tc) (Some t) sd = false.
Proof.
  intros Hn. unfold row_matches.
  rewrite when_cond_other; [reflexivity | | | ];
    intros ->; apply Hn; cbn; auto.
Qed.

Lemma unknown_granularity_witness :
  ~ In "year" time_columns /\
  row_matches (Some "year") (Some "2022") may_2022 = false.
Proof.
  assert (H : ~ In "year" time_columns).
  { cbn. intros [H|[H|[H|[]]]]; discriminate H. }
  split; [exact H|].
  apply (unknown_granularity_counts_no_row "year" "2022" may_2022). exact H.
Defined.

(** On a target without [%], [_] and backslash, a row counts exactly when
    its selected column equals the target, or the target has no delimiter
    of the granularity and the column starts with the target. *)
Theorem plain_target_follows_the_rule (tc t : string) (sd : row) :
  In tc time_columns -> plain t = true ->
  (row_matches (Some tc) (Some t) sd = true <->
   exists v : string,
     selected tc sd = Some v /\
     (v = t \/
      (contains (delimiter tc) t = false /\ String.prefix t v = true))).
Proof.
  intros Htc Hp. rewrite (row_matches_selected tc t sd Htc).
  destruct (selected tc sd) as [v|].
  - unfold like_matches.
    rewrite position_zero, (like_prefix_plain t Hp), orb_true_iff,
            andb_true_iff, negb_true_iff, String.eqb_eq.
    split.
    + intros H. exists v. split; [reflexivity | exact H].
    + intros (w & Hw & H). injection Hw as ->. exact H.
  - split; [discriminate|]. intros (w & Hw & _). discriminate Hw.
Qed.

Lemma plain_target_witness :
  In "ym" time_columns /\ plain "2022" = true /\
  (row_matches (Some "ym") (Some "2022") may_2022 = true <->
   exists v : string,
     selected "ym" may_2022 = Some v /\
     (v = "2022" \/
      (contains (delimiter "ym") "2022" = false /\
       String.prefix "2022" v = true))).
Proof.
  split; [cbn; auto|]. split; [reflexivity|].
  apply (plain_target_follows_the_rule "ym" "2022" may_2022);
    [cbn; auto | reflexivity].
Defined.

End MatchMore.

(** ** The pool, the connection and the tool *)

Module LifecycleFacts.
Import Text Sql Table Query Exec Py Spec Sample.
Local Open Scope py_scope.
Local Open Scope list_scope.

Section WithDivision.

Variable numeric_div : Z -> Z -> Q.

Lemma lookup_in_dict (profit_type : string) (e : expr) (tr : list event) :
  In (profit_type, e) profit_expressions ->
  lookup profit_expressions profit_type tr = (inr e, tr).
Proof.
  intros [H|[H|[H|[]]]]; inversion H; subst; reflexivity.
Qed.

(** [fetch_data] in terms of the call it wraps. *)
Lemma fetch_data_reachable
    (db : store) (profit_type time_column : string)
    (time_values group_by : list string) (limit : Z) (tr : list event) :
  reachable db = true ->
  fetch_data numeric_div db profit_type time_column time_values group_by
    limit tr =
  match get_profit_change_by_segment numeric_div db profit_type time_column
          time_values group_by limit (tr ++ [PoolCreated; Acquired]) with
  | (inl e, tr1) => (inl e, tr1 ++ [Released])
  | (inr rows, tr1) => (inr rows, tr1 ++ [Released; PoolClosed])
  end.
Proof.
  intros Hr. unfold fetch_data, create_pool. rewrite Hr.
  unfold bind, emit, finally, ret.
  replace ((tr ++ [PoolCreated]) ++ [Acquired])
    with (tr ++ [PoolCreated; Acquired]) by (rewrite <- app_assoc; reflexivity).
  destruct (get_profit_change_by_segment numeric_div db profit_type
              time_column time_values group_by limit
              (tr ++ [PoolCreated; Acquired])) as [[e|rows] tr1].
  - reflexivity.
  - rewrite <- app_assoc. reflexivity.
Qed.

(** What the query builder adds to the trace: nothing when it fails before
    the statement, else the statement built and sent, once. *)
Lemma segment_events
    (conn : store) (profit_type time_column : string)
    (time_values group_by : list string) (limit : Z)
    (tr tr' : list event) (res : exn + list record) :
  get_profit_change_by_segment numeric_div conn profit_type time_column
    time_values group_by limit tr = (res, tr') ->
  (tr' = tr /\ exists ex, res = inl ex) \/
  (exists (t1 t2 : string) (e : expr),
     time_values = [t1; t2] /\
     In (profit_type, e) profit_expressions /\
     tr' = tr ++
           [QueryBuilt (mk_statement group_by e group_by limit);
            Fetched (mk_statement group_by e group_by limit)
              (mk_params (Some t1) (Some t2) (Some time_column))] /\
     res = match run numeric_div conn
                   (mk_statement group_by e group_by limit)
                   (mk_params (Some t1) (Some t2) (Some time_column)) with
           | Some rows => inr rows
           | None => inl StoreError
           end).
Proof.
  unfold get_profit_change_by_segment, bind at 1, py_assert.
  destruct (Nat.eqb_spec (List.length time_values) 2) as [Hlen|_].
  2:{ intros H. injection H as <- <-. left. eauto. }
  destruct time_values as [|t1 [|t2 [|t3 rest]]]; try discriminate Hlen.
  cbn [ret]. unfold bind at 1. cbn [unpack2 ret]. unfold bind at 1.
  destruct (lookup profit_expressions profit_type tr) as [[ex|e] tr1] eqn:Hl.
  - intros H. injection H as <- <-. left.
    assert (tr1 = tr); [|eauto].
    clear -Hl. revert Hl. generalize profit_expressions.
    induction l as [|[k v] l IH]; cbn.
    + intros H. injection H as _ <-. reflexivity.
    + destruct (String.eqb profit_type k); [discriminate | exact IH].
  - apply ResultFacts.lookup_found in Hl as [Hin ->].
    unfold bind at 1, emit. unfold fetch, bind, emit. rewrite <- app_assoc.
    intros H. right. exists t1, t2, e.
    destruct (run numeric_div conn (mk_statement group_by e group_by limit)
                (mk_params (Some t1) (Some t2) (Some time_column)));
      injection H as <- <-; auto.
Qed.

(** When [fetch_data] returns records, it has created the pool, taken a
    connection, built one statement and sent it once, given the connection
    back and closed the pool, in that order; the records are those of the
    statement. *)
Theorem fetch_data_success_trace
    (db : store) (profit_type time_column : string)
    (time_values group_by : list string) (limit : Z)
    (tr tr' : list event) (rows : list record) :
  fetch_data numeric_div db profit_type time_column time_values group_by
    limit tr = (inr rows, tr') ->
  exists (t1 t2 : string) (e : expr),
    time_values = [t1; t2] /\
    In (profit_type, e) profit_expressions /\
    run numeric_div db (mk_statement group_by e group_by limit)
        (mk_params (Some t1) (Some t2) (Some time_column)) = Some rows /\
    tr' = tr ++
          [PoolCreated; Acquired;
           QueryBuilt (mk_statement group_by e group_by limit);
           Fetched (mk_statement group_by e group_by limit)
             (mk_params (Some t1) (Some t2) (Some time_column));
           Released; PoolClosed].
Proof.
  destruct (reachable db) eqn:Hr.
  2:{ unfold fetch_data, create_pool, bind, raise. rewrite Hr. discriminate. }
  rewrite (fetch_data_reachable _ _ _ _ _ _ _ Hr).
  destruct (get_profit_change_by_segment numeric_div db profit_type
              time_column time_values group_by limit
              (tr ++ [PoolCreated; Acquired])) as [[e|rows0] tr1] eqn:Hseg;
    [discriminate|].
  intros H. injection H as <- <-.
  destruct (segment_events _ _ _ _ _ _ _ _ _ Hseg)
    as [[_ [ex Hex]]|(t1 & t2 & e & Htv & He & Htr & Hres)];
    [discriminate|].
  exists t1, t2, e. repeat split; [exact Htv | exact He | |].
  - destruct (run numeric_div db (mk_statement group_by e group_by limit)
                (mk_params (Some t1) (Some t2) (Some time_column)));
      [congruence | discriminate].
  - rewrite Htr, <- !app_assoc. reflexivity.
Qed.

(** When the wrapped call raises, [fetch_data] raises the same exception
    after giving the connection back, and the pool is left open: nothing
    follows the release and the pool is closed nowhere in between. *)
Theorem failed_call_releases_but_does_not_close
    (db : store) (profit_type time_column : string)
    (time_values group_by : list string) (limit : Z)
    (tr tr' : list event) (ex : exn) :
  reachable db = true ->
  fetch_data numeric_div db profit_type time_column time_values group_by
    limit tr = (inl ex, tr') ->
  exists mid : list event,
    tr' = tr ++ [PoolCreated; Acquired] ++ mid ++ [Released] /\
    ~ In PoolClosed mid /\
    get_profit_change_by_segment numeric_div db profit_type time_column
      time_values group_by limit (tr ++ [PoolCreated; Acquired]) =
    (inl ex, tr ++ [PoolCreated; Acquired] ++ mid).
Proof.
  intros Hr. rewrite (fetch_data_reachable _ _ _ _ _ _ _ Hr).
  destruct (get_profit_change_by_segment numeric_div db profit_type
              time_column time_values group_by limit
              (tr ++ [PoolCreated; Acquired])) as [[e|rows0] tr1] eqn:Hseg;
    [|discriminate].
  intros H. injection H as <- <-.
  destruct (segment_events _ _ _ _ _ _ _ _ _ Hseg)
    as [[-> _]|(t1 & t2 & e0 & _ & _ & -> & _)].
  - exists []. rewrite <- app_assoc. cbn [app]. repeat split; auto.
  - exists [QueryBuilt (mk_statement group_by e0 group_by limit);
            Fetched (mk_statement group_by e0 group_by limit)
              (mk_params (Some t1) (Some t2) (Some time_column))].
    rewrite <- !app_assoc. cbn [app]. split; [reflexivity|].
    split; [|reflexivity].
    cbn. intros [H|[H|[]]]; discriminate H.
Qed.

(** The tool connects before it validates: when the store cannot be
    reached, a call with at least one time value ends with the store's
    error and an untouched trace, whatever its other arguments are. *)
Theorem unreachable_store_fails_before_validation
    (db : store) (profit_type time_column tv0 : string)
    (rest group_by : list string) (limit : Z) (tr : list event) :
  reachable db = false ->
  get_profit_change numeric_div db profit_type time_column (tv0 :: rest)
    group_by limit tr = (inl StoreError, tr).
Proof.
  intros Hr. unfold get_profit_change, fetch_data, create_pool.
  cbn [getitem nth_error]. unfold bind, ret, raise. rewrite Hr. reflexivity.
Qed.

(** A call of the tool with a wrong number of time values (but at least
    one) is refused only after a pool was created and a connection taken;
    the connection is given back and the pool stays open. *)
Theorem wrong_length_at_the_tool_opens_a_pool
    (db : store) (profit_type time_column tv0 : string)
    (rest group_by : list string) (limit : Z) (tr : list event) :
  reachable db = true ->
  List.length (tv0 :: rest) <> 2%nat ->
  get_profit_change numeric_div db profit_type time_column (tv0 :: rest)
    group_by limit tr =
  (inl (AssertionError "Exactly two time values required"),
   tr ++ [PoolCreated; Acquired; Released]).
Proof.
  intros Hr Hlen. unfold get_profit_change. cbn [getitem nth_error].
  unfold bind at 1. cbn [ret]. unfold bind.
  rewrite (fetch_data_reachable _ _ _ _ _ _ _ Hr).
  unfold get_profit_change_by_segment, bind, py_assert.
  destruct (Nat.eqb_spec (List.length (tv0 :: rest)) 2) as [Heq|_];
    [contradiction|].
  unfold raise. rewrite <- app_assoc. reflexivity.
Qed.

(** What the tool returns is what the query builder returns for the
    inferred granularity, on a connection of a fresh pool; the tool adds
    the release and the closing of the pool. *)
Theorem tool_returns_builder_records
    (db : store) (profit_type time_column : string)
    (time_values group_by : list string) (limit : Z)
    (tr tr' : list event) (rows : list record) :
  get_profit_change numeric_div db profit_type time_column time_values
    group_by limit tr = (inr rows, tr') ->
  exists (tv0 : string) (rest : list string) (tr1 : list event),
    time_values = tv0 :: rest /\
    get_profit_change_by_segment numeric_div db profit_type
      (infer_time_column tv0) time_values group_by limit
      (tr ++ [PoolCreated; Acquired]) = (inr rows, tr1) /\
    tr' = tr1 ++ [Released; PoolClosed].
Proof.
  unfold get_profit_change.
  destruct time_values as [|tv0 rest]; [discriminate|].
  cbn [getitem nth_error]. unfold bind at 1. cbn [ret].
  rewrite PyFacts.bind_ret_r.
  destruct (reachable db) eqn:Hr.
  2:{ unfold fetch_data, create_pool, bind, raise. rewrite Hr. discriminate. }
  rewrite (fetch_data_reachable _ _ _ _ _ _ _ Hr).
  destruct (get_profit_change_by_segment numeric_div db profit_type
              (infer_time_column tv0) (tv0 :: rest) group_by limit
              (tr ++ [PoolCreated; Acquired])) as [[e|rows0] tr1] eqn:Hseg;
    [discriminate|].
  intros H. injection H as <- <-. exists tv0, rest, tr1.
  split; [reflexivity|]. split; [exact Hseg | reflexivity].
Qed.

End WithDivision.

Lemma fetch_data_success_witness :
  fetch_data server_div shop "middle_man" "ym" ["2022"; "2023"] ["bu"] 10 [] =
  (inr [record_B; record_A; record_C],
   [PoolCreated; Acquired] ++ shop_trace 10 ++ [Released; PoolClosed]) /\
  exists (t1 t2 : string) (e : expr),
    ["2022"; "2023"] = [t1; t2] /\
    In ("middle_man", e) profit_expressions /\
    run server_div shop (mk_statement ["bu"] e ["bu"] 10)
        (mk_params (Some t1) (Some t2) (Some "ym")) =
    Some [record_B; record_A; record_C] /\
    [PoolCreated; Acquired] ++ shop_trace 10 ++ [Released; PoolClosed] =
    [] ++
    [PoolCreated; Acquired;
     QueryBuilt (mk_statement ["bu"] e ["bu"] 10);
     Fetched (mk_statement ["bu"] e ["bu"] 10)
       (mk_params (Some t1) (Some t2) (Some "ym"));
     Released; PoolClosed].
Proof.
  assert (H : fetch_data server_div shop "middle_man" "ym" ["2022"; "2023"]
                ["bu"] 10 [] =
              (inr [record_B; record_A; record_C],
               [PoolCreated; Acquired] ++ shop_trace 10 ++
               [Released; PoolClosed])).
  { vm_compute. reflexivity. }
  split; [exact H|].
  apply (fetch_data_success_trace server_div shop "middle_man" "ym"
           ["2022"; "2023"] ["bu"] 10 []). exact H.
Defined.

Lemma failed_call_witness :
  reachable shop = true /\
  fetch_data server_div shop "gross" "ym" ["2022"; "2023"] ["bu"] 10 [] =
  (inl (KeyError "gross"), [PoolCreated; Acquired; Released]) /\
  exists mid : list event,
    [PoolCreated; Acquired; Released] =
    [] ++ [PoolCreated; Acquired] ++ mid ++ [Released] /\
    ~ In PoolClosed mid /\
    get_profit_change_by_segment server_div shop "gross" "ym"
      ["2022"; "2023"] ["bu"] 10 ([] ++ [PoolCreated; Acquired]) =
    (inl (KeyError "gross"), [] ++ [PoolCreated; Acquired] ++ mid).
Proof.
  split; [reflexivity|].
  assert (H : fetch_data server_div shop "gross" "ym" ["2022"; "2023"]
                ["bu"] 10 [] =
              (inl (KeyError "gross"), [PoolCreated; Acquired; Released])).
  { vm_compute. reflexivity. }
  split; [exact H|].
  apply (failed_call_releases_but_does_not_close server_div shop "gross" "ym"
           ["2022"; "2023"] ["bu"] 10 []); [reflexivity | exact H].
Defined.

Lemma unreachable_store_witness :
  reachable offline = false /\
  get_profit_change server_div offline "gross" "ym" ["2022"] ["bu"] 10 [] =
  (inl StoreError, []).
Proof.
  split; [reflexivity|].
  apply (unreachable_store_fails_before_validation server_div offline).
  reflexivity.
Defined.

Lemma wrong_length_at_the_tool_witness :
  reachable shop = true /\
  List.length ["2022"] <> 2%nat /\
  get_profit_change server_div shop "middle_man" "ym" ["2022"] ["bu"] 10 [] =
  (inl (AssertionError "Exactly two time values required"),
   [] ++ [PoolCreated; Acquired; Released]).
Proof.
  split; [reflexivity|]. split; [cbn; lia|].
  apply (wrong_length_at_the_tool_opens_a_pool server_div shop);
    [reflexivity | cbn; lia].
Defined.

Lemma tool_returns_builder_records_witness :
  get_profit_change server_div shop "middle_man" "yh" ["2022"; "2023"]
    ["bu"] 10 [] =
  (inr [record_B; record_A; record_C],
   [PoolCreated; Acquired] ++ shop_trace 10 ++ [Released; PoolClosed]) /\
  exists (tv0 : string) (rest : list string) (tr1 : list event),
    ["2022"; "2023"] = tv0 :: rest /\
    get_profit_change_by_segment server_div shop "middle_man"
      (infer_time_column tv0) ["2022"; "2023"] ["bu"] 10
      ([] ++ [PoolCreated; Acquired]) =
    (inr [record_B; record_A; record_C], tr1) /\
    [PoolCreated; Acquired] ++ shop_trace 10 ++ [Released; PoolClosed] =
    tr1 ++ [Released; PoolClosed].
Proof.
  assert (H : get_profit_change server_div shop "middle_man" "yh"
                ["2022"; "2023"] ["bu"] 10 [] =
              (inr [record_B; record_A; record_C],
               [PoolCreated; Acquired] ++ shop_trace 10 ++
               [Released; PoolClosed])).
  { vm_compute. reflexivity. }
  split; [exact H|].
  apply (tool_returns_builder_records server_div shop "middle_man" "yh"
           ["2022"; "2023"] ["bu"] 10 []). exact H.
Defined.

End LifecycleFacts.

(** ** Groups, keys and sums over the whole table *)

Module GroupFacts.
Import Sql Table Query Exec Py Spec ExecFacts.
Local Open Scope list_scope.

Lemma value_eqb_eq (a b : value) : value_eqb a b = true -> a = b.
Proof.
  destruct a, b; cbn; try discriminate; intros H.
  - reflexivity.
  - apply String.eqb_eq in H. congruence.
  - apply Z.eqb_eq in H. congruence.
Qed.

Lemma key_eqb_eq (a b : list value) : key_eqb a b = true -> a = b.
Proof.
  revert b. induction a as [|x a IH]; intros [|y b]; cbn;
    try discriminate; [reflexivity|].
  intros H. apply andb_true_iff in H as [Hx Hk].
  apply value_eqb_eq in Hx. apply IH in Hk. congruence.
Qed.

Lemma key_eqb_neq (a b : list value) : a <> b -> key_eqb a b = false.
Proof.
  intros Hne. destruct (key_eqb a b) eqn:H; [|reflexivity].
  apply key_eqb_eq in H. contradiction.
Qed.

(** [distinct] keeps every key, each once. *)
Lemma distinct_complete (ks : list (list value)) (k : list value) :
  In k ks -> In k (distinct ks).
Proof.
  induction ks as [|k0 ks IH]; cbn; [tauto|].
  intros [H|H]; [left; exact H|].
  destruct (key_eqb k0 k) eqn:Hk.
  - left. apply key_eqb_eq. exact Hk.
  - right. apply filter_In. split; [apply IH; exact H|].
    rewrite Hk. reflexivity.
Qed.

Lemma distinct_nodup (ks : list (list value)) : NoDup (distinct ks).
Proof.
  induction ks as [|k0 ks IH]; cbn; constructor.
  - intros H. apply filter_In in H as [_ H].
    rewrite key_eqb_refl in H. discriminate.
  - apply NoDup_filter. exact IH.
Qed.

Lemma calc_keys (st : statement) (ps : params) (rows : list row) :
  map c_key (calc st ps rows) =
  distinct (map (group_key (group_by_clause st)) rows).
Proof.
  unfold calc. rewrite map_map. cbn [c_key]. apply map_id.
Qed.

Lemma projected_keys (numeric_div : Z -> Z -> Q) (cs : list calc_row) :
  map key (map (record_of numeric_div) (final cs)) = map c_key cs.
Proof.
  unfold final. rewrite !map_map. reflexivity.
Qed.

(** The keys of the full result, before the sort and the cut. *)
Lemma full_result_keys (numeric_div : Z -> Z -> Q)
    (st : statement) (ps : params) (rows : list row) :
  map key (map (record_of numeric_div) (final (calc st ps rows))) =
  distinct (map (group_key (group_by_clause st)) rows).
Proof. rewrite projected_keys. apply calc_keys. Qed.

Lemma insert_perm {A : Type} (f : A -> sql_num) (x : A) (l : list A) :
  Permutation (insert f x l) (x :: l).
Proof.
  induction l as [|y l IH]; cbn; [reflexivity|].
  destruct (before (f y) (f x)); [|reflexivity].
  rewrite IH. apply perm_swap.
Qed.

Lemma fold_insert_perm {A : Type} (f : A -> sql_num) (l acc : list A) :
  Permutation (fold_left (fun acc x => insert f x acc) l acc) (l ++ acc).
Proof.
  revert acc. induction l as [|x l IH]; intros acc; cbn; [reflexivity|].
  rewrite IH, insert_perm. symmetry. apply Permutation_middle.
Qed.

(** [ORDER BY] only rearranges. *)
Lemma order_by_perm {A : Type} (f : A -> sql_num) (l : list A) :
  Permutation (order_by f l) l.
Proof.
  unfold order_by. rewrite fold_insert_perm, app_nil_r. reflexivity.
Qed.

Lemma firstn_nodup {A : Type} (n : nat) (l : list A) :
  NoDup l -> NoDup (firstn n l).
Proof.
  intros H. rewrite <- (firstn_skipn n l) in H.
  apply NoDup_app_remove_r in H. exact H.
Qed.

Lemma run_shape (numeric_div : Z -> Z -> Q) (db : store) (st : statement)
    (ps : params) (out : list record) :
  run numeric_div db st ps = Some out ->
  out = firstn (Z.to_nat (limit st))
          (order_by profit_change
             (map (record_of numeric_div)
                (final (calc st ps (sales_data db))))).
Proof.
  rewrite run_value. destruct (accepted db st); [|discriminate].
  intros H. injection H as <-. reflexivity.
Qed.

(** *** Sums *)

Lemma total_zero {A : Type} (f : A -> Z) (l : list A) :
  (forall x, In x l -> f x = 0) -> total (map f l) = 0.
Proof.
  induction l as [|x l IH]; intros H; [reflexivity|].
  cbn [map total fold_right]. fold (total (map f l)).
  rewrite (H x (or_introl eq_refl)), IH; [reflexivity|].
  intros y Hy. apply H. right. exact Hy.
Qed.

Lemma total_plus {A : Type} (f g : A -> Z) (l : list A) :
  total (map (fun x => f x + g x) l) = total (map f l) + total (map g l).
Proof.
  induction l as [|x l IH]; [reflexivity|].
  cbn [map total fold_right].
  fold (total (map (fun x => f x + g x) l)).
  fold (total (map f l)). fold (total (map g l)). lia.
Qed.

Lemma total_minus {A : Type} (f g : A -> Z) (l : list A) :
  total (map (fun x => f x - g x) l) = total (map f l) - total (map g l).
Proof.
  induction l as [|x l IH]; [reflexivity|].
  cbn [map total fold_right].
  fold (total (map (fun x => f x - g x) l)).
  fold (total (map f l)). fold (total (map g l)). lia.
Qed.

(** Among distinct keys, exactly one is the key of a given row. *)
Lemma total_indicator (ks : list (list value)) (k0 : list value) (z : Z) :
  NoDup ks -> In k0 ks ->
  total (map (fun k => if key_eqb k0 k then z else 0) ks) = z.
Proof.
  induction 1 as [|k ks Hnin Hnd IH]; intros Hin; [contradiction|].
  cbn [map total fold_right].
  fold (total (map (fun k => if key_eqb k0 k then z else 0) ks)).
  destruct Hin as [->|Hin].
  - rewrite key_eqb_refl, total_zero; [lia|].
    intros k Hk. rewrite key_eqb_neq; [reflexivity|].
    intros ->. contradiction.
  - rewrite IH by exact Hin. rewrite key_eqb_neq; [lia|].
    intros ->. contradiction.
Qed.

(** The groups split the table: summing group by group is summing over all
    rows. *)
Lemma total_by_group (f : row -> Z) (cols : list string)
    (ks : list (list value)) (rows : list row) :
  NoDup ks ->
  (forall sd, In sd rows -> In (group_key cols sd) ks) ->
  total (map (fun k => total (map f (group_rows cols k rows))) ks) =
  total (map f rows).
Proof.
  intros Hnd. induction rows as [|sd rows IH]; intros Hall.
  - cbn. apply total_zero. reflexivity.
  - rewrite (map_ext
               (fun k => total (map f (group_rows cols k (sd :: rows))))
               (fun k => (if key_eqb (group_key cols sd) k then f sd else 0) +
                         total (map f (group_rows cols k rows)))).
    + rewrite total_plus, total_indicator, IH.
      * reflexivity.
      * intros x Hx. apply Hall. right. exact Hx.
      * exact Hnd.
      * apply Hall. left. reflexivity.
    + intros k. unfold group_rows. cbn [filter].
      destruct (key_eqb (group_key cols sd) k); reflexivity.
Qed.

End GroupFacts.

(** ** More on the records of a successful call *)

Module ResultMore.
Import Sql Table Query Exec Py Spec Sample.
Import MatchFacts ProfitFacts ExecFacts ResultFacts GroupFacts.
Local Open Scope list_scope.

Lemma row_matches_other (tc t : string) (sd : row) :
  ~ In tc time_columns -> row_matches (Some tc) (Some t) sd = false.
Proof.
  intros Hn. unfold row_matches.
  rewrite when_cond_other; [reflexivity | | | ];
    intros ->; apply Hn; cbn; auto.
Qed.

Lemma matched_profit_none (e : expr) (tc t : option string) (g : list row) :
  (forall sd, row_matches tc t sd = false) -> matched_profit e tc t g = 0.
Proof.
  intros H. unfold matched_profit.
  induction g as [|sd g IH]; [reflexivity|].
  cbn [filter]. rewrite H. exact IH.
Qed.

Lemma matched_profit_as_total (e : expr) (tc t : option string)
    (g : list row) :
  matched_profit e tc t g =
  total (map (fun sd => if row_matches tc t sd then amount e sd else 0) g).
Proof. unfold matched_profit. symmetry. apply total_restricted. Qed.

(** Summed over the groups, the matched profit is that of the table. *)
Lemma matched_profit_by_group (e : expr) (tc t : option string)
    (cols : list string) (rows : list row) :
  total (map (fun k => matched_profit e tc t (group_rows cols k rows))
             (distinct (map (group_key cols) rows))) =
  matched_profit e tc t rows.
Proof.
  rewrite (matched_profit_as_total e tc t rows).
  rewrite <- (total_by_group
                (fun sd => if row_matches tc t sd then amount e sd else 0)
                cols (distinct (map (group_key cols) rows)) rows).
  - f_equal. apply map_ext. intros k. apply matched_profit_as_total.
  - apply distinct_nodup.
  - intros sd Hsd. apply distinct_complete. apply in_map. exact Hsd.
Qed.

(** The window sum is the change of the whole table. *)
Lemma window_total (st : statement) (ps : params) (rows : list row) :
  total_profit_change st ps rows =
  matched_profit (profit_expr st) (p_time_column ps) (p_t2 ps) rows -
  matched_profit (profit_expr st) (p_time_column ps) (p_t1 ps) rows.
Proof.
  unfold total_profit_change.
  rewrite <- (map_map c_key
                (fun k => sum_t2 st ps rows k - sum_t1 st ps rows k)).
  rewrite calc_keys, total_minus. unfold sum_t2, sum_t1.
  rewrite !matched_profit_by_group. reflexivity.
Qed.

(** The overall expression is worth the two others together, row by row. *)
Lemma amount_overall (em es eo : expr) (sd : row) :
  In ("middle_man", em) profit_expressions ->
  In ("seller", es) profit_expressions ->
  In ("overall", eo) profit_expressions ->
  amount eo sd = amount em sd + amount es sd.
Proof.
  intros [H1|[H1|[H1|[]]]] [H2|[H2|[H2|[]]]] [H3|[H3|[H3|[]]]];
    inversion H1; inversion H2; inversion H3; subst.
  unfold amount. cbn [eval].
  destruct (nvl_some "mid_man_qty" sd) as [q1 ->].
  destruct (nvl_some "mid_man_unit_price_jpy" sd) as [p1 ->].
  destruct (nvl_some "maker_unit_price_jpy" sd) as [p0 ->].
  destruct (nvl_some "seller_qty" sd) as [q2 ->].
  destruct (nvl_some "seller_unit_price_jpy" sd) as [p2 ->].
  reflexivity.
Qed.

Lemma matched_profit_overall (em es eo : expr) (tc t : option string)
    (g : list row) :
  In ("middle_man", em) profit_expressions ->
  In ("seller", es) profit_expressions ->
  In ("overall", eo) profit_expressions ->
  matched_profit eo tc t g = matched_profit em tc t g + matched_profit es tc t g.
Proof.
  intros Hm Hs Ho. rewrite !matched_profit_as_total, <- total_plus.
  f_equal. apply map_ext. intros sd.
  rewrite (amount_overall em es eo sd Hm Hs Ho).
  destruct (row_matches tc t sd); lia.
Qed.

Lemma dict_functional (name : string) (e e' : expr) :
  In (name, e) profit_expressions -> In (name, e') profit_expressions ->
  e = e'.
Proof.
  intros [H|[H|[H|[]]]] [H'|[H'|[H'|[]]]];
    inversion H; subst; inversion H'; subst; reflexivity.
Qed.

Section WithDivision.

Variable numeric_div : Z -> Z -> Q.

(** A call that returns records: its two time values, its expression, which
    is NULL on no row, and the statement that produced the records. *)
Lemma call_facts
    (conn : store) (profit_type time_column : string)
    (time_values group_by : list string) (limit : Z)
    (tr tr' : list event) (out : list record) :
  get_profit_change_by_segment numeric_div conn profit_type time_column
    time_values group_by limit tr = (inr out, tr') ->
  exists (t1 t2 : string) (e : expr),
    time_values = [t1; t2] /\
    In (profit_type, e) profit_expressions /\
    never_null e /\
    run numeric_div conn (mk_statement group_by e group_by limit)
        (mk_params (Some t1) (Some t2) (Some time_column)) = Some out.
Proof.
  intros Hcall.
  destruct (segment_success _ _ _ _ _ _ _ _ _ _ Hcall)
    as (t1 & t2 & e & Htv & He & Hrun).
  exists t1, t2, e. repeat split; try assumption.
  intros sd. apply (profit_expressions_total profit_type). exact He.
Qed.

(** No two records of a result have the same grouping values. *)
Theorem one_record_per_group
    (conn : store) (profit_type time_column : string)
    (time_values group_by : list string) (limit : Z)
    (tr tr' : list event) (out : list record) :
  get_profit_change_by_segment numeric_div conn profit_type time_column
    time_values group_by limit tr = (inr out, tr') ->
  NoDup (map key out).
Proof.
  intros Hcall.
  destruct (call_facts _ _ _ _ _ _ _ _ _ Hcall)
    as (t1 & t2 & e & _ & _ & _ & Hrun).
  rewrite (run_shape _ _ _ _ _ Hrun), <- firstn_map.
  apply firstn_nodup.
  apply (Permutation_NoDup
           (l := map key (map (record_of numeric_div)
                            (final (calc (mk_statement group_by e group_by limit)
                                      (mk_params (Some t1) (Some t2)
                                                 (Some time_column))
                                      (sales_data conn)))))).
  - apply Permutation_map. symmetry. apply order_by_perm.
  - rewrite full_result_keys. apply distinct_nodup.
Qed.

(** The number of records is the number of distinct grouping values in the
    table, cut at [limit]. *)
Theorem record_count
    (conn : store) (profit_type time_column : string)
    (time_values group_by : list string) (limit : Z)
    (tr tr' : list event) (out : list record) :
  get_profit_change_by_segment numeric_div conn profit_type time_column
    time_values group_by limit tr = (inr out, tr') ->
  List.length out =
  Nat.min (Z.to_nat limit)
          (List.length
             (distinct (map (group_key group_by) (sales_data conn)))).
Proof.
  intros Hcall.
  destruct (call_facts _ _ _ _ _ _ _ _ _ Hcall)
    as (t1 & t2 & e & _ & _ & _ & Hrun).
  rewrite (run_shape _ _ _ _ _ Hrun), length_firstn, order_by_length.
  cbn [Query.limit].
  rewrite <- (length_map key), full_result_keys. reflexivity.
Qed.

(** When [limit] is at least the number of groups, every row of the table
    finds the record of its group in the result, also a row that counts for
    neither time value. *)
Theorem every_group_is_reported
    (conn : store) (profit_type time_column : string)
    (time_values group_by : list string) (limit : Z)
    (tr tr' : list event) (out : list record) (sd : row) :
  get_profit_change_by_segment numeric_div conn profit_type time_column
    time_values group_by limit tr = (inr out, tr') ->
  Z.of_nat (List.length
              (distinct (map (group_key group_by) (sales_data conn))))
    <= limit ->
  In sd (sales_data conn) ->
  exists r : record, In r out /\ key r = group_key group_by sd.
Proof.
  intros Hcall Hlim Hsd.
  destruct (call_facts _ _ _ _ _ _ _ _ _ Hcall)
    as (t1 & t2 & e & _ & _ & _ & Hrun).
  rewrite (run_shape _ _ _ _ _ Hrun). cbn [Query.limit].
  rewrite firstn_all2.
  - assert (Hk : In (group_key group_by sd)
                    (map key (map (record_of numeric_div)
                       (final (calc (mk_statement group_by e group_by limit)
                                 (mk_params (Some t1) (Some t2)
                                            (Some time_column))
                                 (sales_data conn)))))).
    { rewrite full_result_keys. apply distinct_complete.
      apply in_map. exact Hsd. }
    apply in_map_iff in Hk as [r [Hkey Hr]].
    exists r. split; [|exact Hkey]. apply order_by_in. exact Hr.
  - rewrite order_by_length, <- (length_map key), full_result_keys.
    cbn [group_by_clause]. lia.
Qed.

(** When every entry of [group_by] names a column of [sales_data], every
    record stands for at least one row of the table: its grouping values
    are those of that row, in the order of [group_by]. *)
Theorem every_record_has_a_row
    (conn : store) (profit_type time_column : string)
    (time_values group_by : list string) (limit : Z)
    (tr tr' : list event) (out : list record) (r : record) :
  forallb (known_column conn) group_by = true ->
  get_profit_change_by_segment numeric_div conn profit_type time_column
    time_values group_by limit tr = (inr out, tr') ->
  In r out ->
  exists sd : row,
    In sd (sales_data conn) /\
    key r = map (fun c => column c sd) group_by.
Proof.
  intros _ Hcall Hr.
  destruct (call_facts _ _ _ _ _ _ _ _ _ Hcall)
    as (t1 & t2 & e & _ & _ & _ & Hrun).
  rewrite (run_shape _ _ _ _ _ Hrun) in Hr.
  apply firstn_incl in Hr. apply order_by_in in Hr.
  apply (in_map key) in Hr. rewrite full_result_keys in Hr.
  apply distinct_incl in Hr. apply in_map_iff in Hr as [sd [Hk Hsd]].
  exists sd. split; [exact Hsd|]. symmetry. exact Hk.
Qed.

(** On an empty table a call that succeeds returns no record. *)
Theorem empty_table_gives_no_record
    (conn : store) (profit_type time_column : string)
    (time_values group_by : list string) (limit : Z)
    (tr tr' : list event) (out : list record) :
  sales_data conn = [] ->
  get_profit_change_by_segment numeric_div conn profit_type time_column
    time_values group_by limit tr = (inr out, tr') ->
  out = [].
Proof.
  intros Hempty Hcall.
  destruct (call_facts _ _ _ _ _ _ _ _ _ Hcall)
    as (t1 & t2 & e & _ & _ & _ & Hrun).
  rewrite (run_shape _ _ _ _ _ Hrun), Hempty. cbn. apply firstn_nil.
Qed.

(** The query builder does not check [time_column]: with a value that is
    none of the three names, a call with two time values, a profit type of
    the dict and a statement that is accepted does not fail, and every
    record it returns reports zero for both periods, zero change and zero
    percent. *)
Theorem unknown_granularity_gives_zeros
    (conn : store) (profit_type time_column t1 t2 : string)
    (group_by : list string) (limit : Z) (tr : list event) (e : expr) :
  ~ In time_column time_columns ->
  In (profit_type, e) profit_expressions ->
  accepted conn (mk_statement group_by e group_by limit) = true ->
  exists out : list record,
    get_profit_change_by_segment numeric_div conn profit_type time_column
      [t1; t2] group_by limit tr =
    (inr out,
     tr ++ [QueryBuilt (mk_statement group_by e group_by limit);
            Fetched (mk_statement group_by e group_by limit)
              (mk_params (Some t1) (Some t2) (Some time_column))]) /\
    forall r : record,
      In r out ->
      profit_t1_jpy r = Some 0 /\
      profit_t2_jpy r = Some 0 /\
      profit_change r = Some 0 /\
      percent_profit_change r = Some 0%Q.
Proof.
  intros Htc He Hacc.
  rewrite (segment_runs numeric_div conn profit_type time_column t1 t2
             group_by limit tr e He Hacc).
  eexists. split; [reflexivity|].
  intros r Hr. apply firstn_incl in Hr. apply order_by_in in Hr.
  assert (Hnn : never_null e).
  { intros sd. apply (profit_expressions_total profit_type). exact He. }
  destruct (projected_record (mk_statement group_by e group_by limit)
              (mk_params (Some t1) (Some t2) (Some time_column))
              (sales_data conn) Hnn numeric_div r Hr)
    as (_ & H1 & H2 & H3 & Hpct).
  rewrite window_total in Hpct.
  unfold sum_t1, sum_t2 in *. cbn [profit_expr p_time_column p_t1 p_t2] in *.
  rewrite !(matched_profit_none e (Some time_column) (Some t1)) in *
    by (intros sd; apply row_matches_other; exact Htc).
  rewrite !(matched_profit_none e (Some time_column) (Some t2)) in *
    by (intros sd; apply row_matches_other; exact Htc).
  repeat split; assumption.
Qed.

(** With the same time value given twice, every record has equal profits
    for the two periods, zero change and zero percent. *)
Theorem same_period_gives_zero_change
    (conn : store) (profit_type time_column t : string)
    (group_by : list string) (limit : Z)
    (tr tr' : list event) (out : list record) (r : record) :
  get_profit_change_by_segment numeric_div conn profit_type time_column
    [t; t] group_by limit tr = (inr out, tr') ->
  In r out ->
  profit_t1_jpy r = profit_t2_jpy r /\
  profit_change r = Some 0 /\
  percent_profit_change r = Some 0%Q.
Proof.
  intros Hcall Hr.
  destruct (call_facts _ _ _ _ _ _ _ _ _ Hcall)
    as (t1 & t2 & e & Htv & _ & Hnn & Hrun).
  injection Htv as <- <-.
  destruct (run_record (mk_statement group_by e group_by limit)
              (mk_params (Some t) (Some t) (Some time_column))
              (sales_data conn) Hnn numeric_div conn out r
              eq_refl Hrun Hr) as (_ & H1 & H2 & H3 & Hpct).
  rewrite window_total in Hpct.
  unfold sum_t1, sum_t2 in *. cbn [profit_expr p_time_column p_t1 p_t2] in *.
  rewrite !Z.sub_diag in *.
  split; [congruence|]. split; assumption.
Qed.

(** The total that the percentages refer to is the change of the whole
    table: the profit of all rows that count for the second time value
    minus the profit of all rows that count for the first. *)
Theorem percent_refers_to_the_change_of_the_table
    (conn : store) (profit_type time_column : string)
    (time_values group_by : list string) (limit : Z)
    (tr tr' : list event) (out : list record) (r : record) :
  get_profit_change_by_segment numeric_div conn profit_type time_column
    time_values group_by limit tr = (inr out, tr') ->
  In r out ->
  exists (t1 t2 : string) (e : expr) (pc tot : Z),
    time_values = [t1; t2] /\
    In (profit_type, e) profit_expressions /\
    tot = matched_profit e (Some time_column) (Some t2) (sales_data conn) -
          matched_profit e (Some time_column) (Some t1) (sales_data conn) /\
    profit_change r = Some pc /\
    (tot = 0 -> percent_profit_change r = Some 0%Q) /\
    (tot <> 0 ->
     percent_profit_change r =
     Some (numeric_round (numeric_div pc (Z.abs tot) * 100) 2)).
Proof.
  intros Hcall Hr.
  destruct (call_facts _ _ _ _ _ _ _ _ _ Hcall)
    as (t1 & t2 & e & Htv & He & Hnn & Hrun).
  destruct (run_record (mk_statement group_by e group_by limit)
              (mk_params (Some t1) (Some t2) (Some time_column))
              (sales_data conn) Hnn numeric_div conn out r
              eq_refl Hrun Hr) as (_ & _ & _ & H3 & Hpct).
  rewrite window_total in Hpct. cbn [profit_expr p_time_column p_t1 p_t2] in Hpct.
  exists t1, t2, e. eexists. eexists.
  split; [exact Htv|]. split; [exact He|]. split; [reflexivity|].
  split; [exact H3|]. rewrite Hpct, percent_value_of.
  split; intros Hz.
  - rewrite Hz. reflexivity.
  - apply Z.eqb_neq in Hz. rewrite Hz. reflexivity.
Qed.

(** Three calls that differ in the profit type only: for the same grouping
    values, the record of [overall] holds the sums of the records of
    [middle_man] and [seller], in both periods and in the change. *)
Theorem overall_records_add_up
    (conn : store) (time_column : string)
    (time_values group_by : list string) (lo lm ls : Z)
    (tro tro' trm trm' trs trs' : list event)
    (outo outm outs : list record) (ro rm rs : record) :
  get_profit_change_by_segment numeric_div conn "overall" time_column
    time_values group_by lo tro = (inr outo, tro') ->
  get_profit_change_by_segment numeric_div conn "middle_man" time_column
    time_values group_by lm trm = (inr outm, trm') ->
  get_profit_change_by_segment numeric_div conn "seller" time_column
    time_values group_by ls trs = (inr outs, trs') ->
  In ro outo -> In rm outm -> In rs outs ->
  key rm = key ro -> key rs = key ro ->
  profit_t1_jpy ro = num_add (profit_t1_jpy rm) (profit_t1_jpy rs) /\
  profit_t2_jpy ro = num_add (profit_t2_jpy rm) (profit_t2_jpy rs) /\
  profit_change ro = num_add (profit_change rm) (profit_change rs).
Proof.
  intros Hco Hcm Hcs Hro Hrm Hrs Hkm Hks.
  destruct (call_facts _ _ _ _ _ _ _ _ _ Hco)
    as (t1 & t2 & eo & Htv & Heo & Hno & Hruno).
  destruct (call_facts _ _ _ _ _ _ _ _ _ Hcm)
    as (t1m & t2m & em & Htvm & Hem & Hnm & Hrunm).
  destruct (call_facts _ _ _ _ _ _ _ _ _ Hcs)
    as (t1s & t2s & es & Htvs & Hes & Hns & Hruns).
  subst time_values. injection Htvm as <- <-. injection Htvs as <- <-.
  destruct (run_record (mk_statement group_by eo group_by lo)
              (mk_params (Some t1) (Some t2) (Some time_column))
              (sales_data conn) Hno numeric_div conn outo ro
              eq_refl Hruno Hro) as (_ & Ho1 & Ho2 & Ho3 & _).
  destruct (run_record (mk_statement group_by em group_by lm)
              (mk_params (Some t1) (Some t2) (Some time_column))
              (sales_data conn) Hnm numeric_div conn outm rm
              eq_refl Hrunm Hrm) as (_ & Hm1 & Hm2 & Hm3 & _).
  destruct (run_record (mk_statement group_by es group_by ls)
              (mk_params (Some t1) (Some t2) (Some time_column))
              (sales_data conn) Hns numeric_div conn outs rs
              eq_refl Hruns Hrs) as (_ & Hs1 & Hs2 & Hs3 & _).
  rewrite Ho1, Ho2, Ho3, Hm1, Hm2, Hm3, Hs1, Hs2, Hs3, Hkm, Hks.
  unfold sum_t1, sum_t2. cbn [profit_expr p_time_column p_t1 p_t2
                              group_by_clause num_add].
  rewrite !(matched_profit_overall em es eo) by assumption.
  repeat split; f_equal; lia.
Qed.

(** Two calls that differ in the order of the two time values only: for the
    same grouping values the profits of the two periods change places and
    the change takes the opposite sign. *)
Theorem swapping_periods_negates_change
    (conn : store) (profit_type time_column t1 t2 : string)
    (group_by : list string) (l l' : Z)
    (tr tr1 tr' tr1' : list event) (out out' : list record)
    (r r' : record) :
  get_profit_change_by_segment numeric_div conn profit_type time_column
    [t1; t2] group_by l tr = (inr out, tr1) ->
  get_profit_change_by_segment numeric_div conn profit_type time_column
    [t2; t1] group_by l' tr' = (inr out', tr1') ->
  In r out -> In r' out' -> key r' = key r ->
  profit_t1_jpy r' = profit_t2_jpy r /\
  profit_t2_jpy r' = profit_t1_jpy r /\
  exists x : Z, profit_change r = Some x /\ profit_change r' = Some (- x).
Proof.
  intros Hc Hc' Hr Hr' Hk.
  destruct (call_facts _ _ _ _ _ _ _ _ _ Hc)
    as (a & b & e & Htv & He & Hn & Hrun).
  destruct (call_facts _ _ _ _ _ _ _ _ _ Hc')
    as (a' & b' & e' & Htv' & He' & Hn' & Hrun').
  injection Htv as <- <-. injection Htv' as <- <-.
  assert (e' = e) as -> by (apply (dict_functional profit_type); assumption).
  destruct (run_record (mk_statement group_by e group_by l)
              (mk_params (Some t1) (Some t2) (Some time_column))
              (sales_data conn) Hn numeric_div conn out r
              eq_refl Hrun Hr) as (_ & H1 & H2 & H3 & _).
  destruct (run_record (mk_statement group_by e group_by l')
              (mk_params (Some t2) (Some t1) (Some time_column))
              (sales_data conn) Hn' numeric_div conn out' r'
              eq_refl Hrun' Hr') as (_ & H1' & H2' & H3' & _).
  rewrite H1, H2, H3, H1', H2', H3', Hk.
  unfold sum_t1, sum_t2. cbn [profit_expr p_time_column p_t1 p_t2
                              group_by_clause].
  split; [reflexivity|]. split; [reflexivity|].
  eexists. split; [reflexivity|]. f_equal. lia.
Qed.

End WithDivision.

Lemma shop_run_10 :
  shop_run "middle_man" "ym" ["2022"; "2023"] =
  (inr [record_B; record_A; record_C],
   snd (shop_run "middle_man" "ym" ["2022"; "2023"])).
Proof. vm_compute. reflexivity. Qed.

Lemma one_record_per_group_witness :
  shop_run "middle_man" "ym" ["2022"; "2023"] =
  (inr [record_B; record_A; record_C],
   snd (shop_run "middle_man" "ym" ["2022"; "2023"])) /\
  NoDup (map key [record_B; record_A; record_C]).
Proof.
  split; [exact shop_run_10|].
  apply (one_record_per_group server_div shop "middle_man" "ym"
           ["2022"; "2023"] ["bu"] 10 []
           (snd (shop_run "middle_man" "ym" ["2022"; "2023"]))).
  exact shop_run_10.
Defined.

Lemma record_count_witness :
  shop_run "middle_man" "ym" ["2022"; "2023"] =
  (inr [record_B; record_A; record_C],
   snd (shop_run "middle_man" "ym" ["2022"; "2023"])) /\
  List.length [record_B; record_A; record_C] =
  Nat.min (Z.to_nat 10)
          (List.length (distinct (map (group_key ["bu"]) (sales_data shop)))).
Proof.
  split; [exact shop_run_10|].
  apply (record_count server_div shop "middle_man" "ym"
           ["2022"; "2023"] ["bu"] 10 []
           (snd (shop_run "middle_man" "ym" ["2022"; "2023"]))).
  exact shop_run_10.
Defined.

Lemma every_group_is_reported_witness :
  shop_run "middle_man" "ym" ["2022"; "2023"] =
  (inr [record_B; record_A; record_C],
   snd (shop_run "middle_man" "ym" ["2022"; "2023"])) /\
  Z.of_nat (List.length
              (distinct (map (group_key ["bu"]) (sales_data shop)))) <= 10 /\
  In (sale "2023/02" "C" 3 7 0) (sales_data shop) /\
  exists r : record,
    In r [record_B; record_A; record_C] /\
    key r = group_key ["bu"] (sale "2023/02" "C" 3 7 0).
Proof.
  split; [exact shop_run_10|].
  split; [vm_compute; discriminate|].
  split; [cbn; auto 6|].
  apply (every_group_is_reported server_div shop "middle_man" "ym"
           ["2022"; "2023"] ["bu"] 10 []
           (snd (shop_run "middle_man" "ym" ["2022"; "2023"])));
    [exact shop_run_10 | vm_compute; discriminate | cbn; auto 6].
Defined.

Lemma every_record_has_a_row_witness :
  forallb (known_column shop) ["bu"] = true /\
  shop_run "middle_man" "ym" ["2022"; "2023"] =
  (inr [record_B; record_A; record_C],
   snd (shop_run "middle_man" "ym" ["2022"; "2023"])) /\
  In record_B [record_B; record_A; record_C] /\
  exists sd : row,
    In sd (sales_data shop) /\
    key record_B = map (fun c => column c sd) ["bu"].
Proof.
  split; [reflexivity|].
  split; [exact shop_run_10|]. split; [cbn; auto|].
  apply (every_record_has_a_row server_div shop "middle_man" "ym"
           ["2022"; "2023"] ["bu"] 10 []
           (snd (shop_run "middle_man" "ym" ["2022"; "2023"]))
           [record_B; record_A; record_C]);
    [reflexivity | exact shop_run_10 | cbn; auto].
Defined.

Lemma empty_table_witness :
  sales_data empty_store = [] /\
  get_profit_change_by_segment server_div empty_store "middle_man" "ym"
    ["2022"; "2023"] ["bu"] 10 [] =
  (inr [], shop_trace 10) /\
  @nil record = [].
Proof.
  split; [reflexivity|].
  assert (H : get_profit_change_by_segment server_div empty_store
                "middle_man" "ym" ["2022"; "2023"] ["bu"] 10 [] =
              (inr [], shop_trace 10)).
  { vm_compute. reflexivity. }
  split; [exact H|].
  apply (empty_table_gives_no_record server_div empty_store "middle_man" "ym"
           ["2022"; "2023"] ["bu"] 10 [] (shop_trace 10));
    [reflexivity | exact H].
Defined.

Lemma unknown_granularity_gives_zeros_witness :
  ~ In "year" time_columns /\
  In ("middle_man", middle_man_expr) profit_expressions /\
  accepted shop (mk_statement ["bu"] middle_man_expr ["bu"] 10) = true /\
  exists out : list record,
    get_profit_change_by_segment server_div shop "middle_man" "year"
      ["2022"; "2023"] ["bu"] 10 [] =
    (inr out,
     [] ++ [QueryBuilt (mk_statement ["bu"] middle_man_expr ["bu"] 10);
            Fetched (mk_statement ["bu"] middle_man_expr ["bu"] 10)
              (mk_params (Some "2022") (Some "2023") (Some "year"))]) /\
    forall r : record,
      In r out ->
      profit_t1_jpy r = Some 0 /\
      profit_t2_jpy r = Some 0 /\
      profit_change r = Some 0 /\
      percent_profit_change r = Some 0%Q.
Proof.
  assert (Hn : ~ In "year" time_columns).
  { cbn. intros [H|[H|[H|[]]]]; discriminate H. }
  split; [exact Hn|]. split; [cbn; auto|]. split; [reflexivity|].
  apply (unknown_granularity_gives_zeros server_div shop "middle_man" "year"
           "2022" "2023" ["bu"] 10 [] middle_man_expr);
    [exact Hn | cbn; auto | reflexivity].
Defined.

Lemma same_period_witness :
  shop_run "middle_man" "ym" ["2022"; "2022"] =
  (inr shop_same_year, snd (shop_run "middle_man" "ym" ["2022"; "2022"])) /\
  In record_A_2022 shop_same_year /\
  profit_t1_jpy record_A_2022 = profit_t2_jpy record_A_2022 /\
  profit_change record_A_2022 = Some 0 /\
  percent_profit_change record_A_2022 = Some 0%Q.
Proof.
  assert (Hc : shop_run "middle_man" "ym" ["2022"; "2022"] =
               (inr shop_same_year,
                snd (shop_run "middle_man" "ym" ["2022"; "2022"]))).
  { vm_compute. reflexivity. }
  split; [exact Hc|]. split; [cbn; auto|].
  apply (same_period_gives_zero_change server_div shop "middle_man" "ym"
           "2022" ["bu"] 10 []
           (snd (shop_run "middle_man" "ym" ["2022"; "2022"]))
           shop_same_year record_A_2022);
    [exact Hc | cbn; auto].
Defined.

Lemma percent_refers_to_the_table_witness :
  shop_run "middle_man" "ym" ["2022"; "2023"] =
  (inr [record_B; record_A; record_C],
   snd (shop_run "middle_man" "ym" ["2022"; "2023"])) /\
  In record_C [record_B; record_A; record_C] /\
  exists (t1 t2 : string) (e : expr) (pc tot : Z),
    ["2022"; "2023"] = [t1; t2] /\
    In ("middle_man", e) profit_expressions /\
    tot = matched_profit e (Some "ym") (Some t2) (sales_data shop) -
          matched_profit e (Some "ym") (Some t1) (sales_data shop) /\
    profit_change record_C = Some pc /\
    (tot = 0 -> percent_profit_change record_C = Some 0%Q) /\
    (tot <> 0 ->
     percent_profit_change record_C =
     Some (numeric_round (server_div pc (Z.abs tot) * 100) 2)).
Proof.
  split; [exact shop_run_10|]. split; [cbn; auto|].
  apply (percent_refers_to_the_change_of_the_table server_div shop
           "middle_man" "ym" ["2022"; "2023"] ["bu"] 10 []
           (snd (shop_run "middle_man" "ym" ["2022"; "2023"]))
           [record_B; record_A; record_C]);
    [exact shop_run_10 | cbn; auto].
Defined.

Lemma overall_records_add_up_witness :
  market_run "overall" =
    (inr [market_record 50 120], snd (market_run "overall")) /\
  market_run "middle_man" =
    (inr [market_record 20 40], snd (market_run "middle_man")) /\
  market_run "seller" =
    (inr [market_record 30 80], snd (market_run "seller")) /\
  profit_t1_jpy (market_record 50 120) =
    num_add (profit_t1_jpy (market_record 20 40))
            (profit_t1_jpy (market_record 30 80)) /\
  profit_t2_jpy (market_record 50 120) =
    num_add (profit_t2_jpy (market_record 20 40))
            (profit_t2_jpy (market_record 30 80)) /\
  profit_change (market_record 50 120) =
    num_add (profit_change (market_record 20 40))
            (profit_change (market_record 30 80)).
Proof.
  assert (Ho : market_run "overall" =
               (inr [market_record 50 120], snd (market_run "overall"))).
  { vm_compute. reflexivity. }
  assert (Hm : market_run "middle_man" =
               (inr [market_record 20 40], snd (market_run "middle_man"))).
  { vm_compute. reflexivity. }
  assert (Hs : market_run "seller" =
               (inr [market_record 30 80], snd (market_run "seller"))).
  { vm_compute. reflexivity. }
  split; [exact Ho|]. split; [exact Hm|]. split; [exact Hs|].
  apply (overall_records_add_up server_div market "ym" ["2022"; "2023"]
           ["bu"] 10 10 10 [] (snd (market_run "overall"))
           [] (snd (market_run "middle_man"))
           [] (snd (market_run "seller"))
           [market_record 50 120] [market_record 20 40]
           [market_record 30 80]);
    [exact Ho | exact Hm | exact Hs | cbn; auto | cbn; auto | cbn; auto
     | reflexivity | reflexivity].
Defined.

Lemma swapping_periods_witness :
  shop_run "middle_man" "ym" ["2022"; "2023"] =
  (inr [record_B; record_A; record_C],
   snd (shop_run "middle_man" "ym" ["2022"; "2023"])) /\
  shop_run "middle_man" "ym" ["2023"; "2022"] =
  (inr shop_swapped, snd (shop_run "middle_man" "ym" ["2023"; "2022"])) /\
  profit_t1_jpy record_A_back = profit_t2_jpy record_A /\
  profit_t2_jpy record_A_back = profit_t1_jpy record_A /\
  exists x : Z,
    profit_change record_A = Some x /\
    profit_change record_A_back = Some (- x).
Proof.
  assert (Hc : shop_run "middle_man" "ym" ["2023"; "2022"] =
               (inr shop_swapped,
                snd (shop_run "middle_man" "ym" ["2023"; "2022"]))).
  { vm_compute. reflexivity. }
  split; [exact shop_run_10|]. split; [exact Hc|].
  apply (swapping_periods_negates_change server_div shop "middle_man" "ym"
           "2022" "2023" ["bu"] 10 10
           [] (snd (shop_run "middle_man" "ym" ["2022"; "2023"]))
           [] (snd (shop_run "middle_man" "ym" ["2023"; "2022"]))
           [record_B; record_A; record_C] shop_swapped);
    [exact shop_run_10 | exact Hc | cbn; auto | cbn; auto | reflexivity].
Defined.

End ResultMore.
